(** * money4band: host detection and stack launcher

    A shallow embedding of [utils/detect.py] and [utils/fn_startStack.py],
    and the properties their specification states about them.

    Python values are the JSON fragment the configuration documents are made
    of; dictionaries are finite maps with string keys.  Text is kept as its
    UTF-8 bytes, and [str.lower] works on the code points behind them.
    Exceptions are values carrying their class and their [str()].  Effectful code runs in a state
    and exception monad over a [World]: the state of everything outside the
    program (terminal, file system, container daemon), which only the
    external collaborators read and change, and the trace of what the program
    itself did (log records, printed lines, pauses, child processes). *)

From Stdlib Require Import ZArith Lia Ascii String.
From stdpp Require Import base strings pretty gmap list.

Set Warnings "-register-all".
Set Default Proof Using "Type".

Local Open Scope Z_scope.

(** ** Python values *)

Inductive pyval : Type :=
| PNone
| PBool (b : bool)
| PInt (n : Z)
| PFloat (bits : Z)                  (* the IEEE-754 binary64 pattern *)
| PStr (s : string)
| PList (l : list pyval)
| PDict (d : gmap string pyval).

Definition type_name (v : pyval) : string :=
  match v with
  | PNone => "NoneType"
  | PBool _ => "bool"
  | PInt _ => "int"
  | PFloat _ => "float"
  | PStr _ => "str"
  | PList _ => "list"
  | PDict _ => "dict"
  end.

(** [bool(v)]: what an [if] or a [not] makes of a value. *)
Definition truthy (v : pyval) : bool :=
  match v with
  | PNone => false
  | PBool b => b
  | PInt n => negb (n =? 0)
  | PFloat bits => negb ((bits =? 0) || (bits =? 2 ^ 63))
  | PStr s => negb (String.eqb s "")
  | PList l => match l with [] => false | _ => true end
  | PDict d => negb (bool_decide (d = ∅))
  end.

(** ** Exceptions

    Each exception carries [msg], the text [str(e)] gives.  [NonException]
    stands for the classes that derive from [BaseException] but not from
    [Exception] ([KeyboardInterrupt], [SystemExit]): an [except Exception]
    clause does not match them. *)

Inductive exn : Type :=
| AttributeError (msg : string)
| TypeError (msg : string)
| KeyError (msg : string)
| ValueError (msg : string)
| FileNotFoundError (msg : string)
| JSONDecodeError (msg : string)
| CalledProcessError (returncode : Z) (stderr : string) (msg : string)
| OtherException (cls : string) (msg : string)
| NonException (cls : string) (msg : string).

Definition str_exn (e : exn) : string :=
  match e with
  | AttributeError msg | TypeError msg | KeyError msg | ValueError msg
  | FileNotFoundError msg | JSONDecodeError msg
  | CalledProcessError _ _ msg | OtherException _ msg | NonException _ msg => msg
  end.

(** [isinstance(e, Exception)] *)
Definition is_Exception (e : exn) : bool :=
  match e with
  | NonException _ _ => false
  | _ => true
  end.

Inductive result (A : Type) : Type :=
| Return (a : A)
| Raise (e : exn).
Arguments Return {A} a.
Arguments Raise {A} e.

(** ** Attribute and item access *)

Definition no_attribute (v : pyval) (attr : string) : exn :=
  AttributeError ("'" +:+ type_name v +:+ "' object has no attribute '" +:+ attr +:+ "'").

(** [v.get(key, dflt)]; [v.get(key)] is [py_get v key PNone].  Of the values
    above only a dictionary has a [get] method. *)
Definition py_get (v : pyval) (key : string) (dflt : pyval) : result pyval :=
  match v with
  | PDict d => Return (default dflt (d !! key))
  | _ => Raise (no_attribute v "get")
  end.

(** The error a document without [system] runs into: [.get("system")] gives
    [None], and [None] has no [get]. *)
Definition none_has_no_get : exn :=
  AttributeError "'NoneType' object has no attribute 'get'".

(** [v[key]] for a string key. *)
Definition py_getitem (v : pyval) (key : string) : result pyval :=
  match v with
  | PDict d =>
      match d !! key with
      | Some x => Return x
      | None => Raise (KeyError ("'" +:+ key +:+ "'"))
      end
  | PStr _ => Raise (TypeError "string indices must be integers, not 'str'")
  | PList _ => Raise (TypeError "list indices must be integers or slices, not str")
  | _ => Raise (TypeError ("'" +:+ type_name v +:+ "' object is not subscriptable"))
  end.

(** ** Strings *)

(** A Python [str] is kept as its UTF-8 bytes.  A byte that is not part of
    a well-formed sequence stands for the lone surrogate U+DC00+byte, the
    way [surrogateescape] lets the interpreter keep the undecodable bytes
    the operating system hands it. *)

Definition byte_of (c : ascii) : Z := Z.of_nat (nat_of_ascii c).
Definition ascii_of (n : Z) : ascii := ascii_of_nat (Z.to_nat n).

Definition escape (n : Z) : Z := 56320 + n.

(** A sequence under way: the continuation bytes still due, the bits read,
    the least code point this length may encode, and the bytes seen. *)
Record pending : Type := { need : nat; value : Z; least : Z; seen : list Z }.

Definition continuation (n : Z) : bool := (128 <=? n) && (n <? 192).

Definition lead (n : Z) : list Z + pending :=
  if n <? 128 then inl [n]
  else if (192 <=? n) && (n <? 224)
       then inr {| need := 1; value := n - 192; least := 128; seen := [n] |}
  else if (224 <=? n) && (n <? 240)
       then inr {| need := 2; value := n - 224; least := 2048; seen := [n] |}
  else if (240 <=? n) && (n <? 248)
       then inr {| need := 3; value := n - 240; least := 65536; seen := [n] |}
  else inl [escape n].

(** No overlong form, no surrogate, nothing beyond U+10FFFF. *)
Definition scalar (least v : Z) : bool :=
  (least <=? v) && (v <=? 1114111) && negb ((55296 <=? v) && (v <=? 57343)).

Fixpoint utf8_decode_from (p : option pending) (s : string) : list Z :=
  match s with
  | EmptyString =>
      match p with
      | Some q => map escape (seen q)
      | None => []
      end
  | String b s' =>
      let n := byte_of b in
      let fresh :=
        match lead n with
        | inl out => out ++ utf8_decode_from None s'
        | inr q => utf8_decode_from (Some q) s'
        end in
      match p with
      | None => fresh
      | Some q =>
          if continuation n then
            let v := value q * 64 + (n - 128) in
            match need q with
            | S (S k) =>
                utf8_decode_from
                  (Some {| need := S k; value := v; least := least q;
                           seen := seen q ++ [n] |}) s'
            | _ =>
                (if scalar (least q) v then [v] else map escape (seen q ++ [n]))
                ++ utf8_decode_from None s'
            end
          else map escape (seen q) ++ fresh
      end
  end.

Definition utf8_decode (s : string) : list Z := utf8_decode_from None s.

Definition utf8_bytes (c : Z) : list Z :=
  if c <? 128 then [c]
  else if c <? 2048 then [192 + (c / 64) mod 32; 128 + c mod 64]
  else if (56448 <=? c) && (c <=? 56575) then [c - 56320]
  else if c <? 65536
       then [224 + (c / 4096) mod 16; 128 + (c / 64) mod 64; 128 + c mod 64]
  else [240 + (c / 262144) mod 8; 128 + (c / 4096) mod 64;
        128 + (c / 64) mod 64; 128 + c mod 64].

Fixpoint utf8_encode (l : list Z) : string :=
  match l with
  | [] => EmptyString
  | c :: l' => string_of_list_ascii (map ascii_of (utf8_bytes c)) +:+ utf8_encode l'
  end.

(** The lower-case mapping of the Unicode character database (version 14,
    the one of CPython 3.11), as runs [(first, last, delta, stride)]: every
    [stride]-th code point from [first] to [last] moves by [delta]; all
    other code points stay.  The run of the ASCII capitals comes first. *)
Definition capital_run : Z * Z * Z * Z := (65, 90, 32, 1).

Definition other_runs : list (Z * Z * Z * Z) :=
  [(192, 214, 32, 1); (216, 222, 32, 1); (256, 302, 1, 2);
   (306, 310, 1, 2); (313, 327, 1, 2); (330, 374, 1, 2); (376, 376, (-121), 1);
   (377, 381, 1, 2); (385, 385, 210, 1); (386, 388, 1, 2); (390, 390, 206, 1);
   (391, 391, 1, 1); (393, 394, 205, 1); (395, 395, 1, 1); (398, 398, 79, 1);
   (399, 399, 202, 1); (400, 400, 203, 1); (401, 401, 1, 1); (403, 403, 205, 1);
   (404, 404, 207, 1); (406, 406, 211, 1); (407, 407, 209, 1); (408, 408, 1, 1);
   (412, 412, 211, 1); (413, 413, 213, 1); (415, 415, 214, 1); (416, 420, 1, 2);
   (422, 422, 218, 1); (423, 423, 1, 1); (425, 425, 218, 1); (428, 428, 1, 1);
   (430, 430, 218, 1); (431, 431, 1, 1); (433, 434, 217, 1); (435, 437, 1, 2);
   (439, 439, 219, 1); (440, 440, 1, 1); (444, 444, 1, 1); (452, 452, 2, 1);
   (453, 453, 1, 1); (455, 455, 2, 1); (456, 456, 1, 1); (458, 458, 2, 1);
   (459, 475, 1, 2); (478, 494, 1, 2); (497, 497, 2, 1); (498, 500, 1, 2);
   (502, 502, (-97), 1); (503, 503, (-56), 1); (504, 542, 1, 2); (544, 544, (-130), 1);
   (546, 562, 1, 2); (570, 570, 10795, 1); (571, 571, 1, 1); (573, 573, (-163), 1);
   (574, 574, 10792, 1); (577, 577, 1, 1); (579, 579, (-195), 1); (580, 580, 69, 1);
   (581, 581, 71, 1); (582, 590, 1, 2); (880, 882, 1, 2); (886, 886, 1, 1);
   (895, 895, 116, 1); (902, 902, 38, 1); (904, 906, 37, 1); (908, 908, 64, 1);
   (910, 911, 63, 1); (913, 929, 32, 1); (931, 939, 32, 1); (975, 975, 8, 1);
   (984, 1006, 1, 2); (1012, 1012, (-60), 1); (1015, 1015, 1, 1); (1017, 1017, (-7), 1);
   (1018, 1018, 1, 1); (1021, 1023, (-130), 1); (1024, 1039, 80, 1); (1040, 1071, 32, 1);
   (1120, 1152, 1, 2); (1162, 1214, 1, 2); (1216, 1216, 15, 1); (1217, 1229, 1, 2);
   (1232, 1326, 1, 2); (1329, 1366, 48, 1); (4256, 4293, 7264, 1); (4295, 4295, 7264, 1);
   (4301, 4301, 7264, 1); (5024, 5103, 38864, 1); (5104, 5109, 8, 1); (7312, 7354, (-3008), 1);
   (7357, 7359, (-3008), 1); (7680, 7828, 1, 2); (7838, 7838, (-7615), 1); (7840, 7934, 1, 2);
   (7944, 7951, (-8), 1); (7960, 7965, (-8), 1); (7976, 7983, (-8), 1); (7992, 7999, (-8), 1);
   (8008, 8013, (-8), 1); (8025, 8031, (-8), 2); (8040, 8047, (-8), 1); (8072, 8079, (-8), 1);
   (8088, 8095, (-8), 1); (8104, 8111, (-8), 1); (8120, 8121, (-8), 1); (8122, 8123, (-74), 1);
   (8124, 8124, (-9), 1); (8136, 8139, (-86), 1); (8140, 8140, (-9), 1); (8152, 8153, (-8), 1);
   (8154, 8155, (-100), 1); (8168, 8169, (-8), 1); (8170, 8171, (-112), 1); (8172, 8172, (-7), 1);
   (8184, 8185, (-128), 1); (8186, 8187, (-126), 1); (8188, 8188, (-9), 1); (8486, 8486, (-7517), 1);
   (8490, 8490, (-8383), 1); (8491, 8491, (-8262), 1); (8498, 8498, 28, 1); (8544, 8559, 16, 1);
   (8579, 8579, 1, 1); (9398, 9423, 26, 1); (11264, 11311, 48, 1); (11360, 11360, 1, 1);
   (11362, 11362, (-10743), 1); (11363, 11363, (-3814), 1); (11364, 11364, (-10727), 1); (11367, 11371, 1, 2);
   (11373, 11373, (-10780), 1); (11374, 11374, (-10749), 1); (11375, 11375, (-10783), 1); (11376, 11376, (-10782), 1);
   (11378, 11378, 1, 1); (11381, 11381, 1, 1); (11390, 11391, (-10815), 1); (11392, 11490, 1, 2);
   (11499, 11501, 1, 2); (11506, 11506, 1, 1); (42560, 42604, 1, 2); (42624, 42650, 1, 2);
   (42786, 42798, 1, 2); (42802, 42862, 1, 2); (42873, 42875, 1, 2); (42877, 42877, (-35332), 1);
   (42878, 42886, 1, 2); (42891, 42891, 1, 1); (42893, 42893, (-42280), 1); (42896, 42898, 1, 2);
   (42902, 42920, 1, 2); (42922, 42922, (-42308), 1); (42923, 42923, (-42319), 1); (42924, 42924, (-42315), 1);
   (42925, 42925, (-42305), 1); (42926, 42926, (-42308), 1); (42928, 42928, (-42258), 1); (42929, 42929, (-42282), 1);
   (42930, 42930, (-42261), 1); (42931, 42931, 928, 1); (42932, 42946, 1, 2); (42948, 42948, (-48), 1);
   (42949, 42949, (-42307), 1); (42950, 42950, (-35384), 1); (42951, 42953, 1, 2); (42960, 42960, 1, 1);
   (42966, 42968, 1, 2); (42997, 42997, 1, 1); (65313, 65338, 32, 1); (66560, 66599, 40, 1);
   (66736, 66771, 40, 1); (66928, 66938, 39, 1); (66940, 66954, 39, 1); (66956, 66962, 39, 1);
   (66964, 66965, 39, 1); (68736, 68786, 64, 1); (71840, 71871, 32, 1); (93760, 93791, 32, 1);
   (125184, 125217, 34, 1)].


Definition lower_runs : list (Z * Z * Z * Z) := capital_run :: other_runs.

Fixpoint lower_in (runs : list (Z * Z * Z * Z)) (c : Z) : Z :=
  match runs with
  | [] => c
  | (first, last, delta, stride) :: rest =>
      if (first <=? c) && (c <=? last) && ((c - first) mod stride =? 0)
      then c + delta
      else lower_in rest c
  end.

(** The full mapping: U+0130 alone becomes two code points. *)
Definition to_lower_full (c : Z) : list Z :=
  if c =? 304 then [105; 775] else [lower_in lower_runs c].

(** The code points that are [Case_Ignorable], and those that are [Cased]
    without being [Case_Ignorable]: the rule for the capital sigma looks at
    no other. *)
Definition case_ignorable : list (Z * Z) :=
  [(39, 39); (46, 46); (58, 58); (94, 94); (96, 96); (168, 168);
   (173, 173); (175, 175); (180, 180); (183, 184); (688, 879); (884, 885);
   (890, 890); (900, 901); (903, 903); (1155, 1161); (1369, 1369); (1375, 1375);
   (1425, 1469); (1471, 1471); (1473, 1474); (1476, 1477); (1479, 1479); (1524, 1524);
   (1536, 1541); (1552, 1562); (1564, 1564); (1600, 1600); (1611, 1631); (1648, 1648);
   (1750, 1757); (1759, 1768); (1770, 1773); (1807, 1807); (1809, 1809); (1840, 1866);
   (1958, 1968); (2027, 2037); (2042, 2042); (2045, 2045); (2070, 2093); (2137, 2139);
   (2184, 2184); (2192, 2193); (2200, 2207); (2249, 2306); (2362, 2362); (2364, 2364);
   (2369, 2376); (2381, 2381); (2385, 2391); (2402, 2403); (2417, 2417); (2433, 2433);
   (2492, 2492); (2497, 2500); (2509, 2509); (2530, 2531); (2558, 2558); (2561, 2562);
   (2620, 2620); (2625, 2626); (2631, 2632); (2635, 2637); (2641, 2641); (2672, 2673);
   (2677, 2677); (2689, 2690); (2748, 2748); (2753, 2757); (2759, 2760); (2765, 2765);
   (2786, 2787); (2810, 2815); (2817, 2817); (2876, 2876); (2879, 2879); (2881, 2884);
   (2893, 2893); (2901, 2902); (2914, 2915); (2946, 2946); (3008, 3008); (3021, 3021);
   (3072, 3072); (3076, 3076); (3132, 3132); (3134, 3136); (3142, 3144); (3146, 3149);
   (3157, 3158); (3170, 3171); (3201, 3201); (3260, 3260); (3263, 3263); (3270, 3270);
   (3276, 3277); (3298, 3299); (3328, 3329); (3387, 3388); (3393, 3396); (3405, 3405);
   (3426, 3427); (3457, 3457); (3530, 3530); (3538, 3540); (3542, 3542); (3633, 3633);
   (3636, 3642); (3654, 3662); (3761, 3761); (3764, 3772); (3782, 3782); (3784, 3789);
   (3864, 3865); (3893, 3893); (3895, 3895); (3897, 3897); (3953, 3966); (3968, 3972);
   (3974, 3975); (3981, 3991); (3993, 4028); (4038, 4038); (4141, 4144); (4146, 4151);
   (4153, 4154); (4157, 4158); (4184, 4185); (4190, 4192); (4209, 4212); (4226, 4226);
   (4229, 4230); (4237, 4237); (4253, 4253); (4348, 4348); (4957, 4959); (5906, 5908);
   (5938, 5939); (5970, 5971); (6002, 6003); (6068, 6069); (6071, 6077); (6086, 6086);
   (6089, 6099); (6103, 6103); (6109, 6109); (6155, 6159); (6211, 6211); (6277, 6278);
   (6313, 6313); (6432, 6434); (6439, 6440); (6450, 6450); (6457, 6459); (6679, 6680);
   (6683, 6683); (6742, 6742); (6744, 6750); (6752, 6752); (6754, 6754); (6757, 6764);
   (6771, 6780); (6783, 6783); (6823, 6823); (6832, 6862); (6912, 6915); (6964, 6964);
   (6966, 6970); (6972, 6972); (6978, 6978); (7019, 7027); (7040, 7041); (7074, 7077);
   (7080, 7081); (7083, 7085); (7142, 7142); (7144, 7145); (7149, 7149); (7151, 7153);
   (7212, 7219); (7222, 7223); (7288, 7293); (7376, 7378); (7380, 7392); (7394, 7400);
   (7405, 7405); (7412, 7412); (7416, 7417); (7468, 7530); (7544, 7544); (7579, 7679);
   (8125, 8125); (8127, 8129); (8141, 8143); (8157, 8159); (8173, 8175); (8189, 8190);
   (8203, 8207); (8216, 8217); (8228, 8228); (8231, 8231); (8234, 8238); (8288, 8292);
   (8294, 8303); (8305, 8305); (8319, 8319); (8336, 8348); (8400, 8432); (11388, 11389);
   (11503, 11505); (11631, 11631); (11647, 11647); (11744, 11775); (11823, 11823); (12293, 12293);
   (12330, 12333); (12337, 12341); (12347, 12347); (12441, 12446); (12540, 12542); (40981, 40981);
   (42232, 42237); (42508, 42508); (42607, 42610); (42612, 42621); (42623, 42623); (42652, 42655);
   (42736, 42737); (42752, 42785); (42864, 42864); (42888, 42890); (42994, 42996); (43000, 43001);
   (43010, 43010); (43014, 43014); (43019, 43019); (43045, 43046); (43052, 43052); (43204, 43205);
   (43232, 43249); (43263, 43263); (43302, 43309); (43335, 43345); (43392, 43394); (43443, 43443);
   (43446, 43449); (43452, 43453); (43471, 43471); (43493, 43494); (43561, 43566); (43569, 43570);
   (43573, 43574); (43587, 43587); (43596, 43596); (43632, 43632); (43644, 43644); (43696, 43696);
   (43698, 43700); (43703, 43704); (43710, 43711); (43713, 43713); (43741, 43741); (43756, 43757);
   (43763, 43764); (43766, 43766); (43867, 43871); (43881, 43883); (44005, 44005); (44008, 44008);
   (44013, 44013); (64286, 64286); (64434, 64450); (65024, 65039); (65043, 65043); (65056, 65071);
   (65106, 65106); (65109, 65109); (65279, 65279); (65287, 65287); (65294, 65294); (65306, 65306);
   (65342, 65342); (65344, 65344); (65392, 65392); (65438, 65439); (65507, 65507); (65529, 65531);
   (66045, 66045); (66272, 66272); (66422, 66426); (67456, 67461); (67463, 67504); (67506, 67514);
   (68097, 68099); (68101, 68102); (68108, 68111); (68152, 68154); (68159, 68159); (68325, 68326);
   (68900, 68903); (69291, 69292); (69446, 69456); (69506, 69509); (69633, 69633); (69688, 69702);
   (69744, 69744); (69747, 69748); (69759, 69761); (69811, 69814); (69817, 69818); (69821, 69821);
   (69826, 69826); (69837, 69837); (69888, 69890); (69927, 69931); (69933, 69940); (70003, 70003);
   (70016, 70017); (70070, 70078); (70089, 70092); (70095, 70095); (70191, 70193); (70196, 70196);
   (70198, 70199); (70206, 70206); (70367, 70367); (70371, 70378); (70400, 70401); (70459, 70460);
   (70464, 70464); (70502, 70508); (70512, 70516); (70712, 70719); (70722, 70724); (70726, 70726);
   (70750, 70750); (70835, 70840); (70842, 70842); (70847, 70848); (70850, 70851); (71090, 71093);
   (71100, 71101); (71103, 71104); (71132, 71133); (71219, 71226); (71229, 71229); (71231, 71232);
   (71339, 71339); (71341, 71341); (71344, 71349); (71351, 71351); (71453, 71455); (71458, 71461);
   (71463, 71467); (71727, 71735); (71737, 71738); (71995, 71996); (71998, 71998); (72003, 72003);
   (72148, 72151); (72154, 72155); (72160, 72160); (72193, 72202); (72243, 72248); (72251, 72254);
   (72263, 72263); (72273, 72278); (72281, 72283); (72330, 72342); (72344, 72345); (72752, 72758);
   (72760, 72765); (72767, 72767); (72850, 72871); (72874, 72880); (72882, 72883); (72885, 72886);
   (73009, 73014); (73018, 73018); (73020, 73021); (73023, 73029); (73031, 73031); (73104, 73105);
   (73109, 73109); (73111, 73111); (73459, 73460); (78896, 78904); (92912, 92916); (92976, 92982);
   (92992, 92995); (94031, 94031); (94095, 94111); (94176, 94177); (94179, 94180); (110576, 110579);
   (110581, 110587); (110589, 110590); (113821, 113822); (113824, 113827); (118528, 118573); (118576, 118598);
   (119143, 119145); (119155, 119170); (119173, 119179); (119210, 119213); (119362, 119364); (121344, 121398);
   (121403, 121452); (121461, 121461); (121476, 121476); (121499, 121503); (121505, 121519); (122880, 122886);
   (122888, 122904); (122907, 122913); (122915, 122916); (122918, 122922); (123184, 123197); (123566, 123566);
   (123628, 123631); (125136, 125142); (125252, 125259); (127995, 127999); (917505, 917505); (917536, 917631);
   (917760, 917999)].


Definition cased : list (Z * Z) :=
  [(65, 90); (97, 122); (170, 170); (181, 181); (186, 186); (192, 214);
   (216, 246); (248, 442); (444, 447); (452, 659); (661, 687); (880, 883);
   (886, 887); (891, 893); (895, 895); (902, 902); (904, 906); (908, 908);
   (910, 929); (931, 1013); (1015, 1153); (1162, 1327); (1329, 1366); (1376, 1416);
   (4256, 4293); (4295, 4295); (4301, 4301); (4304, 4346); (4349, 4351); (5024, 5109);
   (5112, 5117); (7296, 7304); (7312, 7354); (7357, 7359); (7424, 7467); (7531, 7543);
   (7545, 7578); (7680, 7957); (7960, 7965); (7968, 8005); (8008, 8013); (8016, 8023);
   (8025, 8025); (8027, 8027); (8029, 8029); (8031, 8061); (8064, 8116); (8118, 8124);
   (8126, 8126); (8130, 8132); (8134, 8140); (8144, 8147); (8150, 8155); (8160, 8172);
   (8178, 8180); (8182, 8188); (8450, 8450); (8455, 8455); (8458, 8467); (8469, 8469);
   (8473, 8477); (8484, 8484); (8486, 8486); (8488, 8488); (8490, 8493); (8495, 8500);
   (8505, 8505); (8508, 8511); (8517, 8521); (8526, 8526); (8544, 8575); (8579, 8580);
   (9398, 9449); (11264, 11387); (11390, 11492); (11499, 11502); (11506, 11507); (11520, 11557);
   (11559, 11559); (11565, 11565); (42560, 42605); (42624, 42651); (42786, 42863); (42865, 42887);
   (42891, 42894); (42896, 42954); (42960, 42961); (42963, 42963); (42965, 42969); (42997, 42998);
   (43002, 43002); (43824, 43866); (43872, 43880); (43888, 43967); (64256, 64262); (64275, 64279);
   (65313, 65338); (65345, 65370); (66560, 66639); (66736, 66771); (66776, 66811); (66928, 66938);
   (66940, 66954); (66956, 66962); (66964, 66965); (66967, 66977); (66979, 66993); (66995, 67001);
   (67003, 67004); (68736, 68786); (68800, 68850); (71840, 71903); (93760, 93823); (119808, 119892);
   (119894, 119964); (119966, 119967); (119970, 119970); (119973, 119974); (119977, 119980); (119982, 119993);
   (119995, 119995); (119997, 120003); (120005, 120069); (120071, 120074); (120077, 120084); (120086, 120092);
   (120094, 120121); (120123, 120126); (120128, 120132); (120134, 120134); (120138, 120144); (120146, 120485);
   (120488, 120512); (120514, 120538); (120540, 120570); (120572, 120596); (120598, 120628); (120630, 120654);
   (120656, 120686); (120688, 120712); (120714, 120744); (120746, 120770); (120772, 120779); (122624, 122633);
   (122635, 122654); (125184, 125251); (127280, 127305); (127312, 127337); (127344, 127369)].

Fixpoint in_ranges (ranges : list (Z * Z)) (c : Z) : bool :=
  match ranges with
  | [] => false
  | (first, last) :: rest => ((first <=? c) && (c <=? last)) || in_ranges rest c
  end.

(** The nearest code point that is not case-ignorable. *)
Fixpoint first_counted (l : list Z) : option Z :=
  match l with
  | [] => None
  | c :: l' => if in_ranges case_ignorable c then first_counted l' else Some c
  end.

(** U+03A3 ends a word: a cased letter comes before it and none after it,
    case-ignorable code points aside.  [before] starts with the nearest. *)
Definition final_sigma (before after : list Z) : bool :=
  match first_counted before with
  | Some c =>
      in_ranges cased c &&
      match first_counted after with
      | Some d => negb (in_ranges cased d)
      | None => true
      end
  | None => false
  end.

Fixpoint lower_points (before after : list Z) : list Z :=
  match after with
  | [] => []
  | c :: rest =>
      (if c =? 931
       then [if final_sigma before rest then 962 else 963]
       else to_lower_full c)
      ++ lower_points (c :: before) rest
  end.

(** A run that maps nothing onto one of [A]..[Z]. *)
Definition misses_capitals (run : Z * Z * Z * Z) : bool :=
  let '(first, last, delta, _) := run in (last + delta <? 65) || (90 <? first + delta).

(** [str.lower] *)
Definition str_lower (s : string) : string :=
  utf8_encode (lower_points [] (utf8_decode s)).
Arguments str_lower : simpl never.

(** What lower-casing does to ASCII text: [A]..[Z] move to [a]..[z], every
    other character stays. *)
Definition ascii_lower_char (c : ascii) : ascii :=
  let n := nat_of_ascii c in
  if ((65 <=? n) && (n <=? 90))%nat then ascii_of_nat (n + 32) else c.

Fixpoint ascii_lower (s : string) : string :=
  match s with
  | EmptyString => EmptyString
  | String c s' => String (ascii_lower_char c) (ascii_lower s')
  end.

Fixpoint is_ascii (s : string) : bool :=
  match s with
  | EmptyString => true
  | String c s' => (byte_of c <? 128) && is_ascii s'
  end.

Definition is_capital (c : ascii) : bool := (65 <=? byte_of c) && (byte_of c <=? 90).

(** The text holds one of [A]..[Z]. *)
Fixpoint has_ascii_capital (s : string) : bool :=
  match s with
  | EmptyString => false
  | String c s' => is_capital c || has_ascii_capital s'
  end.

(** [posixpath.join] of two components. *)
Definition ends_with_slash (s : string) : bool :=
  match last (list_ascii_of_string s) with
  | Some c => Ascii.eqb c "/"
  | None => false
  end.

Definition path_join (a b : string) : string :=
  if String.prefix "/" b then b
  else if String.eqb a "" || ends_with_slash a then a +:+ b
  else a +:+ "/" +:+ b.

(** An f-string keeps its shape: literal text, and the values formatted
    into it. *)
Inductive piece : Type :=
| Text (s : string)
| Fmt (v : pyval).

Definition fstring : Type := list piece.

(** The colour codes of [colorama]. *)
Definition ESC : string := String (ascii_of_nat 27) "[".
Definition Fore_RED : string := ESC +:+ "31m".
Definition Fore_GREEN : string := ESC +:+ "32m".
Definition Fore_YELLOW : string := ESC +:+ "33m".
Definition Fore_BLUE : string := ESC +:+ "34m".
Definition Style_RESET_ALL : string := ESC +:+ "0m".

(** ** The world outside the program *)

Inductive level : Type := DEBUG | INFO | WARNING | ERROR | CRITICAL.

(** [logging.DEBUG] ... [logging.CRITICAL] *)
Definition level_value (lvl : level) : Z :=
  match lvl with
  | DEBUG => 10
  | INFO => 20
  | WARNING => 30
  | ERROR => 40
  | CRITICAL => 50
  end.

(** What the program does, in the order it does it.  [ProcStart] and
    [ProcEnd] bracket a [subprocess.run], which blocks until the child has
    exited. *)
Inductive event : Type :=
| Log (lvl : level) (msg : fstring)
| Print (msg : fstring)
| Sleep (secs : Z)
| BasicConfig (filename : string) (lvl : Z)
| ProcStart (argv : list string)
| ProcEnd (argv : list string).

(** What [subprocess.run] gives back with [capture_output=True] and
    [text=True]: the exit status of the child and what it wrote. *)
Record CompletedProcess : Type := { returncode : Z; stdout : string; stderr : string }.

(** The collaborators that are not part of the two modules: the host
    ([platform]), the configuration loaders ([utils.load] and
    [utils.loader]), the prompt ([utils.prompt_helper]), the child process
    ([subprocess]), the dashboard summary ([utils.generator]) and the file
    system ([os], [os.path]).  [Env] is the state they live in; the loaders
    and the file tests read it, the others may change it.

    [child_process argv] runs the child to its exit and collects its exit
    status and output; it raises when the child cannot be run.
    [CalledProcessError_str argv status] is the text [str()] gives the
    [CalledProcessError] of that command and exit status. *)
Class Platform : Type := {
  Env : Type;
  platform_system : Env → string;
  platform_machine : Env → string;
  load_load_json_config : pyval → Env → result pyval;      (* utils.load *)
  loader_load_json_config : pyval → Env → result pyval;    (* utils.loader *)
  ask_question_yn : fstring → Env → Env * result bool;
  child_process : list string → Env → Env * result CompletedProcess;
  CalledProcessError_str : list string → Z → string;
  generate_dashboard_urls : pyval → pyval → string → Env → Env * result unit;
  os_path_isdir : string → Env → bool;
  os_path_isfile : string → Env → bool;
  os_listdir : string → Env → result (list string);
  os_makedirs : string → Env → Env * result unit
}.

(** [subprocess.run(argv, check=check, capture_output=True, text=True)]:
    with [check], an exit status other than zero is raised as a
    [CalledProcessError] that carries the status and the captured stderr. *)
Definition subprocess_run `{Platform} (check : bool) (argv : list string) (e : Env)
  : Env * result CompletedProcess :=
  let (e', r) := child_process argv e in
  (e', match r with
       | Return p =>
           if check && negb (returncode p =? 0)
           then Raise (CalledProcessError (returncode p) (stderr p)
                         (CalledProcessError_str argv (returncode p)))
           else Return p
       | Raise x => Raise x
       end).

Record World `{Platform} : Type := { env : Env; trace : list event }.

(** ** The monad of effectful code *)

Definition M `{Platform} (A : Type) : Type := World → World * result A.

Section Monad.
Context `{Platform}.

Definition ret {A} (a : A) : M A := λ w, (w, Return a).

Definition raise {A} (e : exn) : M A := λ w, (w, Raise e).

Definition bind {A B} (c : M A) (k : A → M B) : M B :=
  λ w, match c w with
       | (w', Return a) => k a w'
       | (w', Raise e) => (w', Raise e)
       end.

Definition pure {A} (r : result A) : M A := λ w, (w, r).

(** Reads of the outside state, and calls that may change it. *)
Definition observe {A} (f : Env → A) : M A := λ w, (w, Return (f (env w))).

Definition query {A} (f : Env → result A) : M A := λ w, (w, f (env w)).

Definition call {A} (f : Env → Env * result A) : M A :=
  λ w, let (e', r) := f (env w) in ({| env := e'; trace := trace w |}, r).

Definition emit (ev : event) : M unit :=
  λ w, ({| env := env w; trace := trace w ++ [ev] |}, Return tt).

(** [try: body / except ...]: [handler e] is the body of the first clause
    that matches [e], and [None] when none does. *)
Definition try_except {A} (body : M A) (handler : exn → option (M A)) : M A :=
  λ w, match body w with
       | (w', Return a) => (w', Return a)
       | (w', Raise e) =>
           match handler e with
           | Some h => h w'
           | None => (w', Raise e)
           end
       end.

(** [for x in xs: body]: an exception leaves the loop. *)
Fixpoint for_each {A} (xs : list A) (body : A → M unit) : M unit :=
  match xs with
  | [] => ret tt
  | x :: xs' => bind (body x) (λ _, for_each xs' body)
  end.

(** The world after the program has done [t], the outside unchanged. *)
Definition record (w : World) (t : list event) : World :=
  {| env := env w; trace := trace w ++ t |}.

Definition logging (lvl : level) (msg : fstring) : M unit := emit (Log lvl msg).
Definition print (msg : fstring) : M unit := emit (Print msg).
Definition time_sleep (secs : Z) : M unit := emit (Sleep secs).

End Monad.

#[global] Instance M_ret `{Platform} : MRet M := @ret _.
#[global] Instance M_bind `{Platform} : MBind M := λ A B k c, bind c k.

(** ** utils/detect.py *)

Module detect.
Section detect.
Context `{Platform}.

Definition detect_os (m4b_config_path_or_dict : pyval) : M pyval :=
  try_except
    (m4b_config ← query (load_load_json_config m4b_config_path_or_dict);
     logging DEBUG [Text "Detecting OS type"];;
     system ← pure (py_get m4b_config "system" PNone);
     os_map ← pure (py_get system "os_map" PNone);
     os_type ← observe (λ e, str_lower (platform_system e));
     os_type ← pure (py_get os_map os_type (PStr "unknown"));
     logging INFO [Text "OS type detected: "; Fmt os_type];;
     ret (PDict {[ "os_type" := os_type ]}))
    (λ e, if is_Exception e
          then Some (logging ERROR [Text "An error occurred while detecting OS: ";
                                    Text (str_exn e)];;
                     raise e)
          else None).

Definition detect_architecture (m4b_config_path_or_dict : pyval) : M pyval :=
  try_except
    (m4b_config ← query (load_load_json_config m4b_config_path_or_dict);
     logging DEBUG [Text "Detecting system architecture"];;
     system ← pure (py_get m4b_config "system" PNone);
     arch_map ← pure (py_get system "arch_map" PNone);
     arch ← observe (λ e, str_lower (platform_machine e));
     dkarch ← pure (py_get arch_map arch (PStr "unknown"));
     logging INFO [Text "System architecture detected: "; Text arch;
                   Text ", Docker architecture has been set to "; Fmt dkarch];;
     ret (PDict (<[ "arch" := PStr arch ]> {[ "dkarch" := dkarch ]})))
    (λ e, if is_Exception e
          then Some (logging ERROR [Text "An error occurred while detecting architecture: ";
                                    Text (str_exn e)];;
                     raise e)
          else None).

Definition main (m4b_config_path_or_dict : pyval) : M unit :=
  try_except
    (print [Text "Testing detect module function"];;
     logging INFO [Text "Testing detect module function"];;
     os ← detect_os m4b_config_path_or_dict;
     print [Fmt os];;
     architecture ← detect_architecture m4b_config_path_or_dict;
     print [Fmt architecture];;
     print [Text "Detect module test complete"];;
     logging INFO [Text "Detect module test complete"])
    (λ e, if is_Exception e
          then Some (logging ERROR [Text "An unexpected error occurred: ";
                                    Text (str_exn e)];;
                     raise e)
          else None).

End detect.
End detect.

(** ** Calling a function by keyword

    [bind_keywords f params kwargs] binds the keyword arguments of a call
    [f(k1=v1, ...)] to the parameters of a [def f(p1, ...)] that has no
    defaults: a keyword that names no parameter is refused first, then a
    parameter left without a value. *)

Definition quote (s : string) : string := "'" +:+ s +:+ "'".

Fixpoint unexpected_keyword (params : list string) (kwargs : list (string * pyval))
  : option string :=
  match kwargs with
  | [] => None
  | (k, _) :: rest =>
      if bool_decide (k ∈ params) then unexpected_keyword params rest else Some k
  end.

Fixpoint enumerate_names (names : list string) : string :=
  match names with
  | [] => ""
  | [a] => quote a
  | [a; b] => quote a +:+ " and " +:+ quote b
  | a :: ((_ :: _ :: _) as rest) =>
      quote a +:+ ", " +:+
      match rest with
      | [b; c] => quote b +:+ ", and " +:+ quote c
      | _ => enumerate_names rest
      end
  end.

Definition missing_arguments (fname : string) (missing : list string) : exn :=
  match missing with
  | [a] => TypeError (fname +:+ "() missing 1 required positional argument: " +:+ quote a)
  | _ => TypeError (fname +:+ "() missing " +:+ pretty (length missing) +:+
                    " required positional arguments: " +:+ enumerate_names missing)
  end.

Definition bind_keywords (fname : string) (params : list string)
    (kwargs : list (string * pyval)) : result (gmap string pyval) :=
  match unexpected_keyword params kwargs with
  | Some k =>
      Raise (TypeError (fname +:+ "() got an unexpected keyword argument " +:+ quote k))
  | None =>
      let bound : gmap string pyval := list_to_map kwargs in
      match filter (λ p, bound !! p = None) params with
      | [] => Return bound
      | missing => Raise (missing_arguments fname missing)
      end
  end.

(** ** utils/fn_startStack.py *)

Module fn_startStack.
Section fn_startStack.
Context `{Platform}.

Definition compose_up (compose_file env_file : string) : list string :=
  ["docker"; "compose"; "-f"; compose_file; "--env-file"; env_file; "up"; "-d"].

(** [subprocess.run(argv, check=True, capture_output=True, text=True)]: it
    returns once the child has exited, and raises [CalledProcessError] when
    the exit status is not zero. *)
Definition run (argv : list string) : M CompletedProcess :=
  λ w, let (e', r) := subprocess_run true argv (env w) in
       ({| env := e'; trace := trace w ++ [ProcStart argv; ProcEnd argv] |}, r).

(** The first statement of [start_stack]. *)
Definition starting_stack (compose_file env_file : string) (instance_name : pyval) : event :=
  Log INFO [Text "Starting stack for '"; Fmt instance_name;
            Text "' instance with compose file: "; Text compose_file;
            Text " and env file: "; Text env_file].

Definition proceed_question (instance_name : pyval) : fstring :=
  [Text "This will launch all the apps for '"; Fmt instance_name;
   Text "' instance using the configured .env file and the docker-compose.yaml file (Docker must be already installed and running). Do you wish to proceed?"].

Definition launch_error (instance_name : pyval) : fstring :=
  [Text Fore_RED; Text "Error starting Docker stack for '"; Fmt instance_name;
   Text "' instance. Please check that docker is running and that the configuration is complete then try again.";
   Text Style_RESET_ALL].

Definition unexpected_error (instance_name : pyval) : fstring :=
  [Text Fore_RED; Text "An unexpected error occurred while starting the stack for '";
   Fmt instance_name; Text "' instance."; Text Style_RESET_ALL].

(** The two [except] clauses of [start_stack]. *)
Definition start_stack_handler (instance_name : pyval) (e : exn) : option (M unit) :=
  match e with
  | CalledProcessError _ stderr _ =>
      Some (print (launch_error instance_name);;
            logging ERROR [Text stderr];;
            time_sleep 2)
  | _ =>
      if is_Exception e
      then Some (print (unexpected_error instance_name);;
                 logging ERROR [Text "Unexpected error: "; Text (str_exn e)];;
                 time_sleep 2)
      else None
  end.

(** The [try] statement of [start_stack]. *)
Definition launch (compose_file env_file : string) (instance_name : pyval) : M unit :=
  try_except
    (result ← run (compose_up compose_file env_file);
     print [Text Fore_GREEN; Text "All Apps for '"; Fmt instance_name;
            Text "' instance started successfully."; Text Style_RESET_ALL];;
     time_sleep 2;;
     logging INFO [Text (stdout result)];;
     call (generate_dashboard_urls PNone PNone env_file);;
     print [Text Fore_YELLOW;
            Text "Use the previously generated apps nodes URLs to add your device in any apps dashboard that require node claiming/registration (e.g., Earnapp, ProxyRack, etc.)";
            Text Style_RESET_ALL];;
     time_sleep 2)
    (start_stack_handler instance_name).

Definition start_stack (compose_file env_file : string) (instance_name : pyval)
    (skip_questions : bool) : M unit :=
  emit (starting_stack compose_file env_file instance_name);;
  (* just_fix_windows_console() changes nothing outside Windows consoles *)
  canceled ← (if negb skip_questions
              then answer ← call (ask_question_yn (proceed_question instance_name));
                   ret (negb answer)
              else ret false);
  if (canceled : bool) then
    print [Text Fore_BLUE; Text "Docker stack startup for '"; Fmt instance_name;
           Text "' instance canceled."; Text Style_RESET_ALL];;
    time_sleep 2
  else
    launch compose_file env_file instance_name.

(** The paths of one entry of the instances directory. *)
Definition instance_compose_file (instances_dir instance : string) : string :=
  path_join (path_join instances_dir instance) "docker-compose.yaml".

Definition instance_env_file (instances_dir instance : string) : string :=
  path_join (path_join instances_dir instance) ".env".

Definition failed_to_start (instance : string) (e : exn) : event :=
  Log ERROR [Text "Failed to start instance '"; Text instance; Text "': "; Text (str_exn e)].

(** The body of the [for] loop of [start_multi_proxy_instances]. *)
Definition start_instance (instances_dir : string) (skip_questions : bool)
    (instance : string) : M unit :=
  let compose_file := instance_compose_file instances_dir instance in
  let env_file := instance_env_file instances_dir instance in
  has_compose ← observe (os_path_isfile compose_file);
  has_env ← (if (has_compose : bool) then observe (os_path_isfile env_file) else ret false);
  if has_compose && has_env then
    try_except
      (start_stack compose_file env_file (PStr instance) skip_questions)
      (λ e, if is_Exception e then Some (emit (failed_to_start instance e)) else None)
  else ret tt.

Definition start_multi_proxy_instances (instances_dir : string) (skip_questions : bool)
  : M unit :=
  is_dir ← observe (os_path_isdir instances_dir);
  if (is_dir : bool) then
    print [Text Fore_YELLOW; Text "Starting multi-proxy instances..."; Text Style_RESET_ALL];;
    instances ← query (os_listdir instances_dir);
    for_each instances (start_instance instances_dir skip_questions);;
    print [Text Fore_GREEN; Text "All multi-proxy instances started successfully.";
           Text Style_RESET_ALL]
  else
    logging WARNING [Text "Multi-proxy instances directory '"; Text instances_dir;
                     Text "' does not exist."].

Definition main_handler (e : exn) : option (M unit) :=
  match e with
  | FileNotFoundError _ =>
      Some (logging ERROR [Text "File not found: "; Text (str_exn e)];;
            print [Text Fore_RED; Text "File not found: "; Text (str_exn e);
                   Text Style_RESET_ALL])
  | JSONDecodeError _ =>
      Some (logging ERROR [Text "Error decoding JSON: "; Text (str_exn e)];;
            print [Text Fore_RED; Text "Error decoding JSON: "; Text (str_exn e);
                   Text Style_RESET_ALL])
  | _ =>
      if is_Exception e
      then Some (logging ERROR [Text "An unexpected error occurred in main function: ";
                                Text (str_exn e)];;
                 print [Text Fore_RED; Text "An unexpected error occurred: ";
                        Text (str_exn e); Text Style_RESET_ALL])
      else None
  end.

Definition main (app_config_path m4b_config_path user_config_path : pyval) : M unit :=
  try_except
    (m4b_config ← query (loader_load_json_config m4b_config_path);
     user_config ← query (loader_load_json_config user_config_path);
     project ← pure (py_get m4b_config "project" (PDict ∅));
     base_instance_name ← pure (py_get project "compose_project_name" (PStr "money4band"));
     start_stack "./docker-compose.yaml" "./.env" base_instance_name false;;
     proxies ← pure (py_getitem user_config "proxies");
     enabled ← pure (py_get proxies "enabled" (PBool false));
     if truthy enabled
     then start_multi_proxy_instances "m4b_proxy_instances" true
     else ret tt)
    main_handler.

Definition main_params : list string :=
  ["app_config_path"; "m4b_config_path"; "user_config_path"].

(** A call [main(k1=v1, ...)]. *)
Definition call_main (kwargs : list (string * pyval)) : M unit :=
  bound ← pure (bind_keywords "main" main_params kwargs);
  main (default PNone (bound !! "app_config_path"))
       (default PNone (bound !! "m4b_config_path"))
       (default PNone (bound !! "user_config_path")).

(** What [argparse] hands to the [__main__] block; [--log-level] is one of
    its five [choices], so that [getattr(logging, ...)] is an [int]. *)
Record Namespace : Type := {
  app_config : string;
  m4b_config : string;
  user_config : string;
  log_dir : string;
  log_file : string;
  log_level : level;
  skip_questions : bool
}.

Definition script_handler (e : exn) : option (M unit) :=
  match e with
  | FileNotFoundError _ =>
      Some (logging ERROR [Text "File not found: "; Text (str_exn e)];; raise e)
  | JSONDecodeError _ =>
      Some (logging ERROR [Text "Error decoding JSON: "; Text (str_exn e)];; raise e)
  | _ =>
      if is_Exception e
      then Some (logging ERROR [Text "An unexpected error occurred: "; Text (str_exn e)];;
                 raise e)
      else None
  end.

(** The keyword arguments the [__main__] block passes to [main]. *)
Definition script_kwargs (args : Namespace) : list (string * pyval) :=
  [("app_config_path", PStr (app_config args));
   ("m4b_config_path", PStr (m4b_config args));
   ("user_config_path", PStr (user_config args));
   ("skip_questions", PBool (skip_questions args))].

(** The [__main__] block, after [parser.parse_args()]. *)
Definition script (args : Namespace) : M unit :=
  call (os_makedirs (log_dir args));;
  emit (BasicConfig (path_join (log_dir args) (log_file args))
                    (level_value (log_level args)));;
  logging INFO [Text "Starting fn_startStack script..."];;
  try_except
    (call_main (script_kwargs args);;
     logging INFO [Text "fn_startStack script completed successfully"])
    script_handler.

End fn_startStack.
End fn_startStack.

(** ** Reading a trace *)

(** The call of [start_stack] a log record announces: the record its first
    statement writes, and no other statement of the program. *)
Definition stack_started (ev : event) : option (string * string * pyval) :=
  match ev with
  | Log INFO [Text a; Fmt instance_name; Text b; Text compose_file; Text c; Text env_file] =>
      if String.eqb a "Starting stack for '"
         && String.eqb b "' instance with compose file: "
         && String.eqb c " and env file: "
      then Some (compose_file, env_file, instance_name)
      else None
  | _ => None
  end.

(** The calls of [start_stack] in a trace, in order. *)
Definition start_stack_calls (t : list event) : list (string * string * pyval) :=
  omap stack_started t.

(** The events of a launch: the call of [start_stack], and the start and the
    end of a child process. *)
Definition is_launch_event (ev : event) : bool :=
  match ev with
  | ProcStart _ | ProcEnd _ => true
  | _ => match stack_started ev with Some _ => true | None => false end
  end.

Definition launch_events (t : list event) : list event :=
  List.filter is_launch_event t.

(** The child processes that run once the program has done [t]. *)
Fixpoint in_progress (t : list event) : Z :=
  match t with
  | [] => 0
  | ProcStart _ :: t' => in_progress t' + 1
  | ProcEnd _ :: t' => in_progress t' - 1
  | _ :: t' => in_progress t'
  end.

(** The events that open an attempt: a call of [start_stack], and the start
    of a child process. *)
Definition begins_launch (ev : event) : bool :=
  match ev with
  | ProcEnd _ => false
  | _ => is_launch_event ev
  end.

(** A walk along a trace that keeps track of whether a child process runs:
    it gives up when a child starts, or [start_stack] is entered, while one
    runs, and when a child ends that never started. *)
Fixpoint sequenced (running : bool) (t : list event) : option bool :=
  match t with
  | [] => Some running
  | ProcStart _ :: t' => if running then None else sequenced true t'
  | ProcEnd _ :: t' => if running then sequenced false t' else None
  | ev :: t' => if is_launch_event ev && running then None else sequenced running t'
  end.

Section observations.
Context `{Platform}.

(** An entry of the instances directory that holds both of its files. *)
Definition launchable (instances_dir : string) (e : Env) (instance : string) : bool :=
  os_path_isfile (fn_startStack.instance_compose_file instances_dir instance) e
  && os_path_isfile (fn_startStack.instance_env_file instances_dir instance) e.

(** The arguments [start_multi_proxy_instances] calls [start_stack] with. *)
Definition instance_call (instances_dir instance : string) : string * string * pyval :=
  (fn_startStack.instance_compose_file instances_dir instance,
   fn_startStack.instance_env_file instances_dir instance,
   PStr instance).

(** The launch events of one instance: the call, and the child process when
    the operator did not decline. *)
Definition instance_launch (instances_dir : string) (instance : string) (ran : bool)
  : list event :=
  let compose_file := fn_startStack.instance_compose_file instances_dir instance in
  let env_file := fn_startStack.instance_env_file instances_dir instance in
  fn_startStack.starting_stack compose_file env_file (PStr instance)
  :: (if ran
      then [ProcStart (fn_startStack.compose_up compose_file env_file);
            ProcEnd (fn_startStack.compose_up compose_file env_file)]
      else []).

(** The collaborators raise instances of [Exception] only. *)
Definition collaborators_raise_Exceptions : Prop :=
  (∀ q e e' x, ask_question_yn q e = (e', Raise x) → is_Exception x = true) ∧
  (∀ argv e e' x, subprocess_run true argv e = (e', Raise x) → is_Exception x = true) ∧
  (∀ a b f e e' x, generate_dashboard_urls a b f e = (e', Raise x) → is_Exception x = true).

(** Two states of the outside in which the same entries of the instances
    directory hold both of their files. *)
Definition same_instances (instances_dir : string) (e e' : Env) : Prop :=
  ∀ instance, launchable instances_dir e' instance = launchable instances_dir e instance.

(** The prompt, the child process and the dashboard summary neither create
    nor remove the files of an instance. *)
Definition collaborators_keep_instances (instances_dir : string) : Prop :=
  (∀ q e, same_instances instances_dir e (ask_question_yn q e).1) ∧
  (∀ argv e, same_instances instances_dir e (subprocess_run true argv e).1) ∧
  (∀ a b f e, same_instances instances_dir e (generate_dashboard_urls a b f e).1).

(** The operator lets [start_stack] go on: the question is skipped, or asked
    and answered with yes, which leaves the outside in [e1]. *)
Definition confirmed (instance_name : pyval) (skip_questions : bool) (e e1 : Env) : Prop :=
  if skip_questions then e1 = e
  else ask_question_yn (fn_startStack.proceed_question instance_name) e = (e1, Return true).

(** The launch goes wrong with [x]: the child process exits with a status
    other than zero ([x] is a [CalledProcessError]) or cannot be run, or the
    dashboard summary raises after it. *)
Definition launch_raises (compose_file env_file : string) (e1 e2 : Env) (x : exn) : Prop :=
  subprocess_run true (fn_startStack.compose_up compose_file env_file) e1 = (e2, Raise x) ∨
  ∃ e' r, subprocess_run true (fn_startStack.compose_up compose_file env_file) e1
          = (e', Return r) ∧
          generate_dashboard_urls PNone PNone env_file e' = (e2, Raise x).

(** What [start_stack] tells the operator and the log about [x]: for a
    [CalledProcessError] that docker could not start the stack, with the
    stderr of the child in the log; for anything else that the error was
    unexpected, with its text in the log. *)
Definition failure_report (instance_name : pyval) (x : exn) : list event :=
  match x with
  | CalledProcessError _ stderr _ =>
      [Print [Text Fore_RED; Text "Error starting Docker stack for '"; Fmt instance_name;
              Text "' instance. Please check that docker is running and that the configuration is complete then try again.";
              Text Style_RESET_ALL];
       Log ERROR [Text stderr];
       Sleep 2]
  | _ =>
      [Print [Text Fore_RED;
              Text "An unexpected error occurred while starting the stack for '";
              Fmt instance_name; Text "' instance."; Text Style_RESET_ALL];
       Log ERROR [Text "Unexpected error: "; Text (str_exn x)];
       Sleep 2]
  end.

(** The line [start_multi_proxy_instances] opens with. *)
Definition starting_instances : event :=
  Print [Text Fore_YELLOW; Text "Starting multi-proxy instances..."; Text Style_RESET_ALL].

(** The warning about a missing instances directory. *)
Definition no_instances_dir (instances_dir : string) : event :=
  Log WARNING [Text "Multi-proxy instances directory '"; Text instances_dir;
               Text "' does not exist."].

(** The error of a call of [main] with the keyword [skip_questions]. *)
Definition unexpected_skip_questions : exn :=
  TypeError "main() got an unexpected keyword argument 'skip_questions'".

End observations.

(** ** A reference host

    A Linux machine on x86_64 with the configuration of the specification's
    example, an instances directory with three entries of which [beta] has no
    env file, an operator whose first prompt ends in an end-of-file and who
    answers yes afterwards, and a container daemon that refuses the stack of
    [gamma]. *)

Module demo.

Record host : Type := { prompts : nat; children : list (list string) }.

Definition os_map : gmap string pyval :=
  <[ "linux" := PStr "lin" ]> {[ "darwin" := PStr "mac" ]}.

Definition arch_map : gmap string pyval :=
  <[ "x86_64" := PStr "amd64" ]> {[ "arm64" := PStr "arm64" ]}.

Definition system : gmap string pyval :=
  <[ "os_map" := PDict os_map ]> {[ "arch_map" := PDict arch_map ]}.

Definition document : gmap string pyval := {[ "system" := PDict system ]}.

Definition config : pyval := PDict document.

Definition load (source : pyval) (h : host) : result pyval :=
  match source with
  | PDict _ => Return source
  | PStr "m4b-config.json" => Return config
  | PStr "user-config.json" => Return (PDict {[ "proxies" := PDict {[ "enabled" := PBool true ]} ]})
  | PStr "empty.json" => Return (PDict ∅)
  | PStr path => Raise (FileNotFoundError ("[Errno 2] No such file or directory: " +:+ quote path))
  | _ => Raise (ValueError "Invalid config source")
  end.

Definition files : list string :=
  ["m4b_proxy_instances/alpha/docker-compose.yaml"; "m4b_proxy_instances/alpha/.env";
   "m4b_proxy_instances/beta/docker-compose.yaml";
   "m4b_proxy_instances/gamma/docker-compose.yaml"; "m4b_proxy_instances/gamma/.env";
   "pair/alpha/docker-compose.yaml"; "pair/alpha/.env";
   "pair/beta/docker-compose.yaml"].

Definition listdir (path : string) (h : host) : result (list string) :=
  if String.eqb path "m4b_proxy_instances" then Return ["alpha"; "beta"; "gamma"]
  else if String.eqb path "pair" then Return ["alpha"; "beta"]
  else Raise (FileNotFoundError ("[Errno 2] No such file or directory: " +:+ quote path)).

Definition prompt (question : fstring) (h : host) : host * result bool :=
  ({| prompts := S (prompts h); children := children h |},
   match prompts h with
   | O => Raise (OtherException "EOFError" "EOF when reading a line")
   | S _ => Return true
   end).

Definition spawn (argv : list string) (h : host) : host * result CompletedProcess :=
  ({| prompts := prompts h; children := children h ++ [argv] |},
   Return (if bool_decide ("m4b_proxy_instances/gamma/.env" ∈ argv)
           then {| returncode := 1; stdout := "";
                   stderr := "no configuration file provided" |}
           else {| returncode := 0; stdout := "started"; stderr := "" |})).

(** [CalledProcessError.__str__] for an exit status above zero and a command
    whose words hold no quote. *)
Definition exit_status_text (argv : list string) (status : Z) : string :=
  "Command '[" +:+ String.concat ", " (map quote argv) +:+
  "]' returned non-zero exit status " +:+ pretty status +:+ ".".

#[local] Instance platform : Platform := {|
  Env := host;
  platform_system := λ _, "Linux";
  platform_machine := λ _, "x86_64";
  load_load_json_config := load;
  loader_load_json_config := load;
  ask_question_yn := prompt;
  child_process := spawn;
  CalledProcessError_str := exit_status_text;
  generate_dashboard_urls := λ _ _ _ h, (h, Return tt);
  os_path_isdir := λ path _, bool_decide (path ∈ ["m4b_proxy_instances"; "pair"]);
  os_path_isfile := λ path _, bool_decide (path ∈ files);
  os_listdir := listdir;
  os_makedirs := λ _ h, (h, Return tt)
|}.

Definition boot : World := {| env := {| prompts := 0; children := [] |}; trace := [] |}.

(** A command line of the launcher. *)
Definition args : fn_startStack.Namespace :=
  {| fn_startStack.app_config := "app-config.json";
     fn_startStack.m4b_config := "m4b-config.json";
     fn_startStack.user_config := "user-config.json";
     fn_startStack.log_dir := "./logs";
     fn_startStack.log_file := "fn_startStack.log";
     fn_startStack.log_level := INFO;
     fn_startStack.skip_questions := true |}.

End demo.

(** ** Reading a run of the launcher *)

Section launcher_observations.
Context `{Platform}.

(** What [start_stack] does after a no. *)
Definition canceled (instance_name : pyval) : list event :=
  [Print [Text Fore_BLUE; Text "Docker stack startup for '"; Fmt instance_name;
          Text "' instance canceled."; Text Style_RESET_ALL];
   Sleep 2].

(** The two lines [start_stack] prints when the launch went well. *)
Definition started_successfully (instance_name : pyval) : fstring :=
  [Text Fore_GREEN; Text "All Apps for '"; Fmt instance_name;
   Text "' instance started successfully."; Text Style_RESET_ALL].

Definition claim_hint : fstring :=
  [Text Fore_YELLOW;
   Text "Use the previously generated apps nodes URLs to add your device in any apps dashboard that require node claiming/registration (e.g., Earnapp, ProxyRack, etc.)";
   Text Style_RESET_ALL].

(** The line [start_multi_proxy_instances] closes with. *)
Definition all_started : event :=
  Print [Text Fore_GREEN; Text "All multi-proxy instances started successfully.";
         Text Style_RESET_ALL].

(** What [main] tells the log and the operator about an exception. *)
Definition main_report (x : exn) : list event :=
  match x with
  | FileNotFoundError _ =>
      [Log ERROR [Text "File not found: "; Text (str_exn x)];
       Print [Text Fore_RED; Text "File not found: "; Text (str_exn x);
              Text Style_RESET_ALL]]
  | JSONDecodeError _ =>
      [Log ERROR [Text "Error decoding JSON: "; Text (str_exn x)];
       Print [Text Fore_RED; Text "Error decoding JSON: "; Text (str_exn x);
              Text Style_RESET_ALL]]
  | _ =>
      [Log ERROR [Text "An unexpected error occurred in main function: ";
                  Text (str_exn x)];
       Print [Text Fore_RED; Text "An unexpected error occurred: "; Text (str_exn x);
              Text Style_RESET_ALL]]
  end.

(** The name [main] starts the primary stack under:
    [m4b_config.get('project', {}).get('compose_project_name', 'money4band')]. *)
Definition base_instance_name (m4b_config : pyval) : result pyval :=
  match py_get m4b_config "project" (PDict ∅) with
  | Return project => py_get project "compose_project_name" (PStr "money4band")
  | Raise e => Raise e
  end.

(** [user_config['proxies'].get('enabled', False)] *)
Definition proxies_enabled (user_config : pyval) : result pyval :=
  match py_getitem user_config "proxies" with
  | Return proxies => py_get proxies "enabled" (PBool false)
  | Raise e => Raise e
  end.

(** The primary stack, as [main] starts it. *)
Definition start_primary (instance_name : pyval) : M unit :=
  fn_startStack.start_stack "./docker-compose.yaml" "./.env" instance_name false.

(** What the [except] clauses of [main] make of [x] in the world [w]. *)
Definition caught (w : World) (x : exn) : World * result unit :=
  match fn_startStack.main_handler x with
  | Some h => h w
  | None => (w, Raise x)
  end.

(** Every collaborator of the launcher raises instances of [Exception]
    only. *)
Definition launcher_raises_Exceptions : Prop :=
  collaborators_raise_Exceptions ∧
  (∀ src e x, loader_load_json_config src e = Raise x → is_Exception x = true) ∧
  (∀ path e x, os_listdir path e = Raise x → is_Exception x = true).

(** A computation that goes on from every world, adds to the trace, and
    lets nothing but an [Exception] out. *)
Definition contained {A} (c : M A) : Prop :=
  ∀ w, ∃ w' r t, c w = (w', r) ∧ trace w' = trace w ++ t ∧
                 ∀ x, r = Raise x → is_Exception x = true.

(** A computation that returns normally from every world. *)
Definition returns {A} (c : M A) : Prop :=
  ∀ w, ∃ w' a t, c w = (w', Return a) ∧ trace w' = trace w ++ t.

End launcher_observations.

(** The reference host once the operator has answered the first prompt. *)
Definition answered : @World demo.platform :=
  @Build_World demo.platform {| demo.prompts := 1; demo.children := [] |} [].

(** ** Hosts that differ in how they spell their names

    The outside state is the pair of strings the host reports; a dictionary
    is its own configuration, every other source loads the configuration
    of the specification's example. *)

Module hosts.

Definition load (source : pyval) (h : string * string) : result pyval :=
  match source with
  | PDict _ => Return source
  | _ => Return demo.config
  end.

#[local] Instance platform : Platform := {|
  Env := string * string;
  platform_system := fst;
  platform_machine := snd;
  load_load_json_config := load;
  loader_load_json_config := load;
  ask_question_yn := λ _ h, (h, Return true);
  child_process := λ _ h, (h, Return {| returncode := 0; stdout := ""; stderr := "" |});
  CalledProcessError_str := demo.exit_status_text;
  generate_dashboard_urls := λ _ _ _ h, (h, Return tt);
  os_path_isdir := λ _ _, false;
  os_path_isfile := λ _ _, false;
  os_listdir := λ _ _, Return [];
  os_makedirs := λ _ h, (h, Return tt)
|}.

Definition mixed : World := {| env := ("Linux", "x86_64"); trace := [] |}.
Definition upper : World := {| env := ("LINUX", "X86_64"); trace := [] |}.
Definition accented : World := {| env := ("Linux", "ARM64É"); trace := [] |}.

End hosts.

(** ** A host with nothing to launch

    Every path is a directory; the outside state says whether a directory
    may be listed, and a listing holds one plain file. *)

Module bare.

#[local] Instance platform : Platform := {|
  Env := bool;
  platform_system := λ _, "Linux";
  platform_machine := λ _, "x86_64";
  load_load_json_config := λ _ _, Return demo.config;
  loader_load_json_config := λ _ _, Return demo.config;
  ask_question_yn := λ _ h, (h, Return true);
  child_process := λ _ h, (h, Return {| returncode := 0; stdout := ""; stderr := "" |});
  CalledProcessError_str := demo.exit_status_text;
  generate_dashboard_urls := λ _ _ _ h, (h, Return tt);
  os_path_isdir := λ _ _, true;
  os_path_isfile := λ _ _, false;
  os_listdir := λ path listable,
    if listable then Return ["README.md"]
    else Raise (OtherException "PermissionError"
                  ("[Errno 13] Permission denied: " +:+ quote path));
  os_makedirs := λ _ h, (h, Return tt)
|}.

Definition open : World := {| env := true; trace := [] |}.
Definition locked : World := {| env := false; trace := [] |}.

End bare.

(** ** A host whose first stack does not come up

    The directory [fleet] holds the complete instances [first] and
    [second]; the child process of [first] exits with status 1, every other
    with 0.  The outside state is the list of the commands run. *)

Module fleet.

#[local] Instance platform : Platform := {|
  Env := list (list string);
  platform_system := λ _, "Linux";
  platform_machine := λ _, "x86_64";
  load_load_json_config := λ _ _, Return demo.config;
  loader_load_json_config := λ _ _, Return demo.config;
  ask_question_yn := λ _ h, (h, Return true);
  child_process := λ argv h,
    (h ++ [argv],
     Return (if bool_decide ("fleet/first/.env" ∈ argv)
             then {| returncode := 1; stdout := ""; stderr := "port is already allocated" |}
             else {| returncode := 0; stdout := "started"; stderr := "" |}));
  CalledProcessError_str := demo.exit_status_text;
  generate_dashboard_urls := λ _ _ _ h, (h, Return tt);
  os_path_isdir := λ _ _, true;
  os_path_isfile := λ _ _, true;
  os_listdir := λ _ _, Return ["first"; "second"];
  os_makedirs := λ _ h, (h, Return tt)
|}.

Definition boot : World := {| env := []; trace := [] |}.

End fleet.

(** * Properties *)

(** Unfolds the monad so that a run can be followed step by step. *)
Ltac run_monad :=
  unfold mbind, M_bind, mret, M_ret, bind, ret, raise, pure, observe, query, call, emit,
    try_except, logging, print, time_sleep in *;
  simpl in *.

Section record.
Context `{Platform}.

Lemma record_nil (w : World) : record w [] = w.
Proof. destruct w. unfold record. simpl. by rewrite app_nil_r. Qed.

End record.

Lemma py_get_raise (v : pyval) (key : string) (dflt : pyval) (e : exn) :
  py_get v key dflt = Raise e → e = no_attribute v "get".
Proof. destruct v; simpl; congruence. Qed.

(** ** Text *)

Section text.
#[local] Arguments to_lower_full : simpl never.
#[local] Arguments utf8_bytes : simpl never.

Lemma ascii_of_byte_of (b : ascii) : ascii_of (byte_of b) = b.
Proof. unfold ascii_of, byte_of. by rewrite Nat2Z.id, ascii_nat_embedding. Qed.

Lemma byte_of_ascii_of (n : Z) : 0 ≤ n < 256 → byte_of (ascii_of n) = n.
Proof.
  intros Hn. unfold ascii_of, byte_of. rewrite nat_ascii_embedding by lia. lia.
Qed.

(** On a byte below 128 the full mapping is the ASCII one. *)
Lemma to_lower_full_ascii (b : ascii) :
  (byte_of b <? 128) = true →
  (byte_of b =? 931) = false ∧
  to_lower_full (byte_of b) = [byte_of (ascii_lower_char b)] ∧
  (byte_of (ascii_lower_char b) <? 128) = true.
Proof.
  destruct b as [[] [] [] [] [] [] [] []]; intros Hb; vm_compute in Hb;
    try discriminate Hb; vm_compute; done.
Qed.

Lemma lower_points_ascii (s : string) (before : list Z) :
  is_ascii s = true →
  utf8_encode (lower_points before (utf8_decode_from None s)) = ascii_lower s.
Proof.
  revert before. induction s as [|b s IH]; intros before Hs; [done|].
  simpl in Hs. apply andb_true_iff in Hs as [Hb Hs].
  destruct (to_lower_full_ascii b Hb) as (Hsigma & Hlow & Hlow_ascii).
  cbn [utf8_decode_from ascii_lower]. unfold lead. rewrite Hb.
  cbn [app lower_points]. rewrite Hsigma, Hlow. cbn [app utf8_encode].
  unfold utf8_bytes. rewrite Hlow_ascii. cbn [map string_of_list_ascii].
  rewrite ascii_of_byte_of. simpl. by rewrite IH.
Qed.

(** [str.lower] on ASCII text. *)
Lemma str_lower_ascii (s : string) : is_ascii s = true → str_lower s = ascii_lower s.
Proof. apply lower_points_ascii. Qed.

Lemma lower_in_no_capital (runs : list (Z * Z * Z * Z)) (c : Z) :
  forallb misses_capitals runs = true →
  ¬ (65 ≤ c ≤ 90) → ¬ (65 ≤ lower_in runs c ≤ 90).
Proof.
  intros Hruns Hc. induction runs as [|[[[first last] delta] stride] rest IH]; [done|].
  simpl in Hruns. apply andb_true_iff in Hruns as [Hrun Hrest].
  simpl. destruct (_ && _ && _) eqn:Hin; [|by apply IH].
  apply andb_true_iff in Hin as [Hin _]. apply andb_true_iff in Hin as [Hlo Hhi].
  apply orb_true_iff in Hrun. lia.
Qed.

Lemma to_lower_full_no_capital (c : Z) :
  Forall (λ d, ¬ (65 ≤ d ≤ 90)) (to_lower_full c).
Proof.
  unfold to_lower_full. destruct (c =? 304); [repeat constructor; lia|].
  constructor; [|constructor].
  unfold lower_runs, capital_run. cbn [lower_in].
  destruct (_ && _ && _) eqn:Hin.
  - apply andb_true_iff in Hin as [Hin _]. apply andb_true_iff in Hin as [Hlo Hhi]. lia.
  - apply lower_in_no_capital; [by vm_compute|].
    rewrite Z.mod_1_r in Hin. intros Hc.
    apply not_true_iff_false in Hin. apply Hin.
    repeat (apply andb_true_iff; split); lia.
Qed.

Lemma lower_points_no_capital (before after : list Z) :
  Forall (λ d, ¬ (65 ≤ d ≤ 90)) (lower_points before after).
Proof.
  revert before. induction after as [|c rest IH]; intros before; [constructor|].
  cbn [lower_points]. apply Forall_app. split; [|apply IH].
  destruct (c =? 931); [|apply to_lower_full_no_capital].
  destruct (final_sigma before rest); repeat constructor; lia.
Qed.

Lemma utf8_bytes_no_capital (c : Z) :
  ¬ (65 ≤ c ≤ 90) → Forall (λ n, is_capital (ascii_of n) = false) (utf8_bytes c).
Proof.
  intros Hc.
  assert (Hhigh : ∀ n, 128 ≤ n < 256 → is_capital (ascii_of n) = false).
  { intros n Hn. unfold is_capital. rewrite byte_of_ascii_of by lia. lia. }
  unfold utf8_bytes.
  destruct (c <? 128) eqn:Hlow.
  - repeat constructor. unfold is_capital.
    destruct (decide (0 ≤ c)) as [Hpos|Hneg].
    + rewrite byte_of_ascii_of by lia. lia.
    + unfold ascii_of. replace (Z.to_nat c) with 0%nat by lia. done.
  - pose proof (Z.mod_pos_bound (c / 64) 32). pose proof (Z.mod_pos_bound c 64).
    pose proof (Z.mod_pos_bound (c / 4096) 16). pose proof (Z.mod_pos_bound (c / 64) 64).
    pose proof (Z.mod_pos_bound (c / 262144) 8). pose proof (Z.mod_pos_bound (c / 4096) 64).
    destruct (c <? 2048); [repeat constructor; apply Hhigh; lia|].
    destruct (_ && _) eqn:Hraw.
    { apply andb_true_iff in Hraw as [? ?]. repeat constructor. apply Hhigh. lia. }
    destruct (c <? 65536); repeat constructor; apply Hhigh; lia.
Qed.

Lemma has_ascii_capital_app (a b : string) :
  has_ascii_capital (a +:+ b) = has_ascii_capital a || has_ascii_capital b.
Proof. induction a as [|c a IH]; [done|]. simpl. by rewrite IH, orb_assoc. Qed.

Lemma utf8_encode_no_capital (l : list Z) :
  Forall (λ d, ¬ (65 ≤ d ≤ 90)) l → has_ascii_capital (utf8_encode l) = false.
Proof.
  induction 1 as [|c l Hc _ IH]; [done|].
  cbn [utf8_encode]. rewrite has_ascii_capital_app, IH, orb_false_r.
  induction (utf8_bytes_no_capital c Hc) as [|n bytes Hn _ IHbytes]; [done|].
  simpl. by rewrite Hn, IHbytes.
Qed.

Example str_lower_ascii_name : str_lower "Linux" = "linux".
Proof. reflexivity. Qed.

Example str_lower_accented : str_lower "ARM64É" = "arm64é".
Proof. reflexivity. Qed.

Example str_lower_dotted_I : utf8_decode (str_lower "İ") = [105; 775].
Proof. reflexivity. Qed.

Example str_lower_final_sigma : str_lower "ΟΔΟΣ ΣΑΣ" = "οδος σας".
Proof. reflexivity. Qed.

(** Whatever the text, [str.lower] leaves none of [A]..[Z] in it. *)
Lemma str_lower_no_capital (s : string) : has_ascii_capital (str_lower s) = false.
Proof. apply utf8_encode_no_capital, lower_points_no_capital. Qed.

End text.

Module detect_spec.
Import detect.
Section detect_spec.
Context `{Platform}.

(** C1: with [system.os_map] in the configuration, [detect_os] returns the
    label [os_map] gives the lower-cased OS name of the host, and
    ["unknown"] when [os_map] has no such key.  The key is what [str.lower]
    makes of the name: for an ASCII name, the name with [A]..[Z] moved to
    [a]..[z]. *)
Theorem detect_os_lookup (src : pyval) (w : World) (cfg sys os_map : gmap string pyval) :
  load_load_json_config src (env w) = Return (PDict cfg) →
  cfg !! "system" = Some (PDict sys) →
  sys !! "os_map" = Some (PDict os_map) →
  let s := str_lower (platform_system (env w)) in
  (∀ v, os_map !! s = Some v →
        (detect_os src w).2 = Return (PDict {[ "os_type" := v ]})) ∧
  (os_map !! s = None →
        (detect_os src w).2 = Return (PDict {[ "os_type" := PStr "unknown" ]})) ∧
  (is_ascii (platform_system (env w)) = true →
        s = ascii_lower (platform_system (env w))).
Proof.
  intros Hload Hsys Hmap s.
  unfold detect_os. run_monad. rewrite Hload. simpl. rewrite Hsys. simpl.
  rewrite Hmap. simpl. fold s.
  split; [|split].
  - intros v Hv. rewrite Hv. reflexivity.
  - intros Hv. rewrite Hv. reflexivity.
  - apply str_lower_ascii.
Qed.

(** C2: with [system.arch_map] in the configuration, [detect_architecture]
    returns the lower-cased machine string of the host as [arch], and as
    [dkarch] the label [arch_map] gives it, or ["unknown"] when [arch_map]
    has no such key.  [arch] is what [str.lower] makes of the machine
    string: for an ASCII string, the string with [A]..[Z] moved to
    [a]..[z]. *)
Theorem detect_architecture_lookup (src : pyval) (w : World)
    (cfg sys arch_map : gmap string pyval) :
  load_load_json_config src (env w) = Return (PDict cfg) →
  cfg !! "system" = Some (PDict sys) →
  sys !! "arch_map" = Some (PDict arch_map) →
  let a := str_lower (platform_machine (env w)) in
  (∀ v, arch_map !! a = Some v →
        (detect_architecture src w).2
        = Return (PDict (<[ "arch" := PStr a ]> {[ "dkarch" := v ]}))) ∧
  (arch_map !! a = None →
        (detect_architecture src w).2
        = Return (PDict (<[ "arch" := PStr a ]> {[ "dkarch" := PStr "unknown" ]}))) ∧
  (is_ascii (platform_machine (env w)) = true →
        a = ascii_lower (platform_machine (env w))).
Proof.
  intros Hload Hsys Hmap a.
  unfold detect_architecture. run_monad. rewrite Hload. simpl. rewrite Hsys. simpl.
  rewrite Hmap. simpl. fold a.
  split; [|split].
  - intros v Hv. rewrite Hv. reflexivity.
  - intros Hv. rewrite Hv. reflexivity.
  - apply str_lower_ascii.
Qed.

(** C3: on a configuration document without the [system] key both
    detection functions log the error and raise it; neither returns. *)
Theorem detect_missing_system (src : pyval) (w : World) (cfg : gmap string pyval) :
  load_load_json_config src (env w) = Return (PDict cfg) →
  cfg !! "system" = None →
  detect_os src w
  = ({| env := env w;
        trace := trace w ++
          [Log DEBUG [Text "Detecting OS type"];
           Log ERROR [Text "An error occurred while detecting OS: ";
                      Text (str_exn none_has_no_get)]] |},
     Raise none_has_no_get) ∧
  detect_architecture src w
  = ({| env := env w;
        trace := trace w ++
          [Log DEBUG [Text "Detecting system architecture"];
           Log ERROR [Text "An error occurred while detecting architecture: ";
                      Text (str_exn none_has_no_get)]] |},
     Raise none_has_no_get).
Proof.
  intros Hload Hsys.
  unfold detect_os, detect_architecture. run_monad. rewrite Hload. simpl.
  rewrite Hsys. simpl. rewrite <- !app_assoc. simpl. split; reflexivity.
Qed.

(** What a run of [detect_os] logs and gives back is settled by the loaded
    document and the host's OS name; the outside state stays as it was. *)
Lemma detect_os_run (loaded : result pyval) (system : string) :
  ∃ t r, ∀ src w,
    load_load_json_config src (env w) = loaded →
    platform_system (env w) = system →
    detect_os src w = (record w t, r).
Proof.
  destruct loaded as [doc|e].
  - destruct (py_get doc "system" PNone) as [sys|e1] eqn:Hsys;
      [destruct (py_get sys "os_map" PNone) as [m|e2] eqn:Hmap;
       [destruct (py_get m (str_lower system) (PStr "unknown")) as [v|e3] eqn:Hv|]|];
      try match goal with
          | Herr : py_get _ _ _ = Raise _ |- _ =>
              pose proof (py_get_raise _ _ _ _ Herr) as ->
          end;
      eexists _, _; intros src w Hload Hhost;
      unfold detect_os, record; run_monad;
      rewrite Hload; simpl; rewrite Hsys; simpl;
      rewrite ?Hmap; simpl; rewrite ?Hhost, ?Hv; simpl;
      rewrite <- ?app_assoc; reflexivity.
  - destruct (is_Exception e) eqn:He.
    + eexists _, _; intros src w Hload _. unfold detect_os, record. run_monad.
      rewrite Hload. simpl. rewrite He. simpl. reflexivity.
    + exists [], (Raise e). intros src w Hload _. rewrite record_nil.
      unfold detect_os. run_monad. rewrite Hload. simpl. rewrite He. reflexivity.
Qed.

Lemma detect_architecture_run (loaded : result pyval) (machine : string) :
  ∃ t r, ∀ src w,
    load_load_json_config src (env w) = loaded →
    platform_machine (env w) = machine →
    detect_architecture src w = (record w t, r).
Proof.
  destruct loaded as [doc|e].
  - destruct (py_get doc "system" PNone) as [sys|e1] eqn:Hsys;
      [destruct (py_get sys "arch_map" PNone) as [m|e2] eqn:Hmap;
       [destruct (py_get m (str_lower machine) (PStr "unknown")) as [v|e3] eqn:Hv|]|];
      try match goal with
          | Herr : py_get _ _ _ = Raise _ |- _ =>
              pose proof (py_get_raise _ _ _ _ Herr) as ->
          end;
      eexists _, _; intros src w Hload Hhost;
      unfold detect_architecture, record; run_monad;
      rewrite Hload; simpl; rewrite Hsys; simpl;
      rewrite ?Hmap; simpl; rewrite ?Hhost, ?Hv; simpl;
      rewrite <- ?app_assoc; reflexivity.
  - destruct (is_Exception e) eqn:He.
    + eexists _, _; intros src w Hload _. unfold detect_architecture, record. run_monad.
      rewrite Hload. simpl. rewrite He. simpl. reflexivity.
    + exists [], (Raise e). intros src w Hload _. rewrite record_nil.
      unfold detect_architecture. run_monad. rewrite Hload. simpl. rewrite He. reflexivity.
Qed.

(** C9: the outcome of [detect_os] and of [detect_architecture] is a function
    of the loaded configuration document and the host's strings: two calls
    that agree on these return the same, whatever ran before; a call leaves
    the outside state as it found it, so a later call returns what the
    earlier one did. *)
Theorem detect_pure (src1 src2 : pyval) (w1 w2 : World) :
  load_load_json_config src1 (env w1) = load_load_json_config src2 (env w2) →
  platform_system (env w1) = platform_system (env w2) →
  platform_machine (env w1) = platform_machine (env w2) →
  ((detect_os src1 w1).2 = (detect_os src2 w2).2 ∧
   (detect_architecture src1 w1).2 = (detect_architecture src2 w2).2) ∧
  (env (detect_os src1 w1).1 = env w1 ∧
   env (detect_architecture src1 w1).1 = env w1) ∧
  ((detect_os src1 (detect_os src1 w1).1).2 = (detect_os src1 w1).2 ∧
   (detect_os src1 (detect_architecture src1 w1).1).2 = (detect_os src1 w1).2 ∧
   (detect_architecture src1 (detect_os src1 w1).1).2 = (detect_architecture src1 w1).2 ∧
   (detect_architecture src1 (detect_architecture src1 w1).1).2
   = (detect_architecture src1 w1).2).
Proof.
  intros Hload Hsys Hmach.
  destruct (detect_os_run (load_load_json_config src1 (env w1)) (platform_system (env w1)))
    as (t & r & Hos).
  destruct (detect_architecture_run (load_load_json_config src1 (env w1))
              (platform_machine (env w1))) as (t' & r' & Harch).
  rewrite (Hos src1 w1), (Hos src2 w2), (Harch src1 w1), (Harch src2 w2) by done.
  simpl. rewrite (Hos src1 (record w1 t)), (Hos src1 (record w1 t')) by done.
  rewrite (Harch src1 (record w1 t)), (Harch src1 (record w1 t')) by done.
  done.
Qed.

End detect_spec.

#[local] Existing Instance demo.platform.

Lemma detect_os_lookup_witness :
  (load_load_json_config (PStr "m4b-config.json") (env demo.boot) = Return (PDict demo.document) ∧
   demo.document !! "system" = Some (PDict demo.system) ∧
   demo.system !! "os_map" = Some (PDict demo.os_map)) ∧
  platform_system (env demo.boot) = "Linux" ∧
  (detect_os (PStr "m4b-config.json") demo.boot).2
  = Return (PDict {[ "os_type" := PStr "lin" ]}).
Proof.
  split; [repeat split|]. split; [reflexivity|].
  apply (proj1 (detect_os_lookup (PStr "m4b-config.json") demo.boot
                  demo.document demo.system demo.os_map eq_refl eq_refl eq_refl)).
  reflexivity.
Defined.

Lemma detect_architecture_lookup_witness :
  (@load_load_json_config hosts.platform PNone (env hosts.upper)
   = Return (PDict demo.document) ∧
   demo.document !! "system" = Some (PDict demo.system) ∧
   demo.system !! "arch_map" = Some (PDict demo.arch_map)) ∧
  @platform_machine hosts.platform (env hosts.upper) = "X86_64" ∧
  (@detect_architecture hosts.platform PNone hosts.upper).2
  = Return (PDict (<[ "arch" := PStr "x86_64" ]> {[ "dkarch" := PStr "amd64" ]})).
Proof.
  split; [repeat split|]. split; [reflexivity|].
  apply (proj1 (@detect_architecture_lookup hosts.platform PNone hosts.upper
                  demo.document demo.system demo.arch_map eq_refl eq_refl eq_refl)).
  reflexivity.
Defined.

Example detect_architecture_accented :
  @detect_architecture hosts.platform
    (PDict {[ "system" := PDict {[ "arch_map" := PDict {[ "arm64é" := PStr "arm64" ]} ]} ]})
    hosts.accented
  = (record hosts.accented
       [Log DEBUG [Text "Detecting system architecture"];
        Log INFO [Text "System architecture detected: "; Text "arm64é";
                  Text ", Docker architecture has been set to "; Fmt (PStr "arm64")]],
     Return (PDict (<[ "arch" := PStr "arm64é" ]> {[ "dkarch" := PStr "arm64" ]}))).
Proof. reflexivity. Qed.

Lemma detect_missing_system_witness :
  (load_load_json_config (PStr "empty.json") (env demo.boot) = Return (PDict ∅) ∧
   (∅ : gmap string pyval) !! "system" = None) ∧
  (detect_os (PStr "empty.json") demo.boot).2 = Raise none_has_no_get ∧
  (detect_architecture (PStr "empty.json") demo.boot).2 = Raise none_has_no_get.
Proof.
  split; [split; reflexivity|].
  destruct (detect_missing_system (PStr "empty.json") demo.boot ∅ eq_refl eq_refl)
    as [Hos Harch].
  rewrite Hos, Harch. split; reflexivity.
Defined.

Lemma detect_pure_witness :
  (detect_os demo.config demo.boot).2
  = (detect_os (PStr "m4b-config.json")
       (detect_architecture (PStr "m4b-config.json") demo.boot).1).2.
Proof.
  apply (detect_pure demo.config (PStr "m4b-config.json") demo.boot
           (detect_architecture (PStr "m4b-config.json") demo.boot).1
           eq_refl eq_refl eq_refl).
Defined.

End detect_spec.

(** ** Traces *)

Section traces.
#[local] Arguments stack_started : simpl never.

Lemma start_stack_calls_launch_events (t : list event) :
  start_stack_calls (launch_events t) = start_stack_calls t.
Proof.
  unfold start_stack_calls, launch_events, omap.
  induction t as [|ev t IH]; [done|].
  simpl. destruct (is_launch_event ev) eqn:Hev; simpl; rewrite IH.
  - done.
  - destruct ev; try discriminate; unfold is_launch_event in Hev;
      by destruct (stack_started _).
Qed.

Lemma start_stack_calls_app (t t' : list event) :
  start_stack_calls (t ++ t') = start_stack_calls t ++ start_stack_calls t'.
Proof. apply omap_app. Qed.

Lemma start_stack_calls_instance_launch (instances_dir instance : string) (ran : bool) :
  start_stack_calls (instance_launch instances_dir instance ran)
  = [instance_call instances_dir instance].
Proof. by destruct ran. Qed.

Lemma start_stack_calls_instances (instances_dir : string) (instances : list string)
    (ran : list bool) :
  length ran = length instances →
  start_stack_calls (concat (zip_with (instance_launch instances_dir) instances ran))
  = map (instance_call instances_dir) instances.
Proof.
  revert ran. induction instances as [|i rest IH]; intros [|b ran] Hlen; try done.
  change (start_stack_calls
            (instance_launch instances_dir i b
             ++ concat (zip_with (instance_launch instances_dir) rest ran))
          = instance_call instances_dir i :: map (instance_call instances_dir) rest).
  rewrite start_stack_calls_app, start_stack_calls_instance_launch, IH; [done|].
  simpl in Hlen. congruence.
Qed.

Lemma sequenced_launch_events (running : bool) (t : list event) :
  sequenced running (launch_events t) = sequenced running t.
Proof.
  unfold launch_events. revert running.
  induction t as [|ev t IH]; intros running; [done|].
  simpl. destruct (is_launch_event ev) eqn:Hev.
  - destruct ev; simpl in *; rewrite ?Hev, ?IH; done.
  - destruct ev; try discriminate; simpl in *; rewrite ?Hev, ?IH; done.
Qed.

Lemma sequenced_app (running : bool) (t t' : list event) :
  sequenced running (t ++ t') = sequenced running t ≫= λ r, sequenced r t'.
Proof.
  revert running. induction t as [|ev t IH]; intros running; [done|].
  destruct ev; simpl; try (destruct (_ && running); [done|apply IH]);
    destruct running; try done; apply IH.
Qed.

Lemma sequenced_instances (instances_dir : string) (instances : list string)
    (ran : list bool) :
  sequenced false (concat (zip_with (instance_launch instances_dir) instances ran))
  = Some false.
Proof.
  revert ran. induction instances as [|i rest IH]; intros [|b ran]; try done.
  change (sequenced false
            (instance_launch instances_dir i b
             ++ concat (zip_with (instance_launch instances_dir) rest ran))
          = Some false).
  rewrite sequenced_app.
  assert (sequenced false (instance_launch instances_dir i b) = Some false) as ->
    by (by destruct b).
  apply IH.
Qed.

(** Along a trace the walk accepts, the count of running child processes
    follows the walk. *)
Lemma sequenced_prefix (running r' : bool) (t1 t2 : list event) :
  sequenced running (t1 ++ t2) = Some r' →
  ∃ b, sequenced b t2 = Some r' ∧ in_progress t1 = Z.b2z b - Z.b2z running.
Proof.
  revert running. induction t1 as [|ev t1 IH]; intros running Hseq.
  - exists running. split; [done|]. simpl. lia.
  - destruct ev; simpl in Hseq;
      try (destruct (_ && running); [done|];
           destruct (IH _ Hseq) as (b & Hb & Hn); exists b; simpl;
           split; [done|lia]);
      destruct running; try done;
      destruct (IH _ Hseq) as (b & Hb & Hn); exists b; simpl in *; split; try done; lia.
Qed.

(** What the walk stands for: at every moment of an accepted trace at most
    one child process runs, and none runs when an attempt begins. *)
Lemma sequenced_one_at_a_time (t : list event) (r' : bool) :
  sequenced false t = Some r' →
  (∀ t1 t2, t = t1 ++ t2 → in_progress t1 = 0 ∨ in_progress t1 = 1) ∧
  (∀ t1 ev t2, t = t1 ++ ev :: t2 → begins_launch ev = true → in_progress t1 = 0).
Proof.
  intros Hseq. split.
  - intros t1 t2 ->. destruct (sequenced_prefix _ _ _ _ Hseq) as (b & _ & Hn).
    destruct b; simpl in Hn; lia.
  - intros t1 ev t2 -> Hev. destruct (sequenced_prefix _ _ _ _ Hseq) as (b & Hb & Hn).
    destruct b; [|simpl in Hn; lia].
    destruct ev; simpl in *; try done; by rewrite Hev in Hb.
Qed.

End traces.

Module fn_startStack_spec.
Import fn_startStack.
Section fn_startStack_spec.
Context `{Platform}.

(** With [check=True], a child that exits with a status other than zero
    is a [CalledProcessError] with that status and the child's stderr. *)
Lemma subprocess_run_nonzero (argv : list string) (e e' : Env) (p : CompletedProcess) :
  child_process argv e = (e', Return p) → returncode p ≠ 0 →
  subprocess_run true argv e
  = (e', Raise (CalledProcessError (returncode p) (stderr p)
                  (CalledProcessError_str argv (returncode p)))).
Proof.
  intros Hchild Hstatus. unfold subprocess_run. rewrite Hchild. simpl.
  by destruct (Z.eqb_spec (returncode p) 0).
Qed.

(** A launch that goes wrong ends in the report of what went wrong, and
    [start_stack] returns. *)
Lemma start_stack_failure (compose_file env_file : string) (instance_name : pyval)
    (skip_questions : bool) (w : World) (e1 : Env) :
  collaborators_raise_Exceptions →
  confirmed instance_name skip_questions (env w) e1 →
  ∃ w', start_stack compose_file env_file instance_name skip_questions w = (w', Return tt) ∧
        ∀ e2 x, launch_raises compose_file env_file e1 e2 x →
                env w' = e2 ∧
                ∃ t, trace w' = trace w ++ t ++ failure_report instance_name x.
Proof.
  intros (_ & Hrun & Hdash) Hyes.
  unfold confirmed in Hyes. unfold start_stack, launch, run.
  destruct skip_questions; run_monad; [subst e1|rewrite Hyes; simpl];
    (destruct (subprocess_run true (compose_up compose_file env_file) _)
       as [e2 [r|x]] eqn:Hsub; simpl;
     [destruct (generate_dashboard_urls PNone PNone env_file e2)
        as [e3 [[]|x]] eqn:Hgen; simpl;
      [|pose proof (Hdash _ _ _ _ _ _ Hgen) as Hx]
     |pose proof (Hrun _ _ _ _ Hsub) as Hx]);
    try (destruct x; simplify_eq/=);
    (eexists; split; [reflexivity|]);
    (intros e4 y [Hy | (e' & r' & Hy & Hy')];
     rewrite Hsub in Hy; simplify_eq/=;
     try (rewrite Hgen in Hy'; simplify_eq/=));
    (split; [reflexivity|]); rewrite <- !app_assoc; simpl;
    first [ by eexists [_; _; _] | by eexists [_; _; _; _; _; _] ].
Qed.

(** C4: once the operator has confirmed, or the question is skipped,
    [start_stack] returns normally whatever becomes of the launch.  When the
    child process exits with a status other than zero, the last things it
    does are to print that the stack could not be started, to log the
    child's stderr as an error and to pause; when anything else in the
    launch raises, to print that an unexpected error occurred, to log the
    text of the exception as an error and to pause. *)
Theorem start_stack_reports_failure (compose_file env_file : string) (instance_name : pyval)
    (skip_questions : bool) (w : World) (e1 : Env) :
  collaborators_raise_Exceptions →
  confirmed instance_name skip_questions (env w) e1 →
  ∃ w', start_stack compose_file env_file instance_name skip_questions w = (w', Return tt) ∧
        (∀ e2 p, child_process (compose_up compose_file env_file) e1 = (e2, Return p) →
                 returncode p ≠ 0 →
                 env w' = e2 ∧
                 ∃ t, trace w' = trace w ++ t ++
                   [Print [Text Fore_RED; Text "Error starting Docker stack for '";
                           Fmt instance_name;
                           Text "' instance. Please check that docker is running and that the configuration is complete then try again.";
                           Text Style_RESET_ALL];
                    Log ERROR [Text (stderr p)];
                    Sleep 2]) ∧
        (∀ e2 x, launch_raises compose_file env_file e1 e2 x →
                 env w' = e2 ∧
                 ∃ t, trace w' = trace w ++ t ++ failure_report instance_name x).
Proof.
  intros Hexc Hyes.
  destruct (start_stack_failure compose_file env_file instance_name skip_questions
              w e1 Hexc Hyes) as (w' & Hstart & Hreport).
  exists w'. split; [done|]. split; [|done].
  intros e2 p Hchild Hstatus.
  apply (Hreport e2 (CalledProcessError (returncode p) (stderr p)
                       (CalledProcessError_str (compose_up compose_file env_file)
                          (returncode p)))).
  left. by apply subprocess_run_nonzero.
Qed.

(** The [try] statement of [start_stack] runs one child process, and
    returns normally whatever becomes of it. *)
Lemma launch_run (instances_dir compose_file env_file : string)
    (instance_name : pyval) (w : World) :
  collaborators_raise_Exceptions →
  collaborators_keep_instances instances_dir →
  ∃ w' t,
    launch compose_file env_file instance_name w = (w', Return tt) ∧
    trace w' = trace w ++ ProcStart (compose_up compose_file env_file)
                       :: ProcEnd (compose_up compose_file env_file) :: t ∧
    launch_events t = [] ∧
    same_instances instances_dir (env w) (env w').
Proof.
  intros (_ & Hrun & Hdash) (_ & Krun & Kdash).
  unfold launch, run. run_monad.
  pose proof (Krun (compose_up compose_file env_file) (env w)) as K1.
  destruct (subprocess_run true (compose_up compose_file env_file) (env w))
    as [e1 [r|x]] eqn:Hsub; simpl in *.
  - pose proof (Kdash PNone PNone env_file e1) as K2.
    destruct (generate_dashboard_urls PNone PNone env_file e1)
      as [e2 [[]|x]] eqn:Hgen; simpl in *.
    + eexists _, _. split; [reflexivity|]. simpl. rewrite <- !app_assoc. simpl.
      split; [reflexivity|]. split; [reflexivity|].
      intros i. by rewrite K2, K1.
    + pose proof (Hdash _ _ _ _ _ _ Hgen) as Hx.
      destruct x; simplify_eq/=; eexists _, _;
        (split; [reflexivity|]); simpl; rewrite <- !app_assoc; simpl;
        (split; [reflexivity|]); (split; [reflexivity|]);
        intros i; by rewrite K2, K1.
  - pose proof (Hrun _ _ _ _ Hsub) as Hx.
    destruct x; simplify_eq/=; eexists _, _;
      (split; [reflexivity|]); simpl; rewrite <- !app_assoc; simpl;
      (split; [reflexivity|]); (split; [reflexivity|]);
      intros i; by rewrite K1.
Qed.

(** One call of [start_stack]: it announces itself, runs at most one child
    process, and lets nothing but an [Exception] out. *)
Lemma start_stack_run (instances_dir compose_file env_file : string)
    (instance_name : pyval) (skip_questions : bool) (w : World) :
  collaborators_raise_Exceptions →
  collaborators_keep_instances instances_dir →
  ∃ w' r t (ran : bool),
    start_stack compose_file env_file instance_name skip_questions w = (w', r) ∧
    trace w' = trace w ++ starting_stack compose_file env_file instance_name :: t ∧
    launch_events t
    = (if ran then [ProcStart (compose_up compose_file env_file);
                    ProcEnd (compose_up compose_file env_file)] else []) ∧
    (skip_questions = true → ran = true) ∧
    same_instances instances_dir (env w) (env w') ∧
    (∀ x, r = Raise x → is_Exception x = true).
Proof.
  intros Hexc Hkeep.
  pose proof Hexc as (Hask & _). pose proof Hkeep as (Kask & _).
  unfold start_stack. destruct skip_questions; run_monad.
  - destruct (launch_run instances_dir compose_file env_file instance_name
                {| env := env w;
                   trace := trace w ++ [starting_stack compose_file env_file instance_name] |}
                Hexc Hkeep) as (w' & t & Hl & Ht & Hev & Hsame).
    exists w', (Return tt), (ProcStart (compose_up compose_file env_file)
                             :: ProcEnd (compose_up compose_file env_file) :: t), true.
    rewrite Hl. simpl in *. rewrite Ht, <- app_assoc. unfold launch_events in *. simpl.
    rewrite Hev. done.
  - pose proof (Kask (proceed_question instance_name) (env w)) as K1.
    destruct (ask_question_yn (proceed_question instance_name) (env w))
      as [e1 [[|]|x]] eqn:Ha; simpl in *.
    + destruct (launch_run instances_dir compose_file env_file instance_name
                  {| env := e1;
                     trace := trace w ++ [starting_stack compose_file env_file instance_name] |}
                  Hexc Hkeep) as (w' & t & Hl & Ht & Hev & Hsame).
      exists w', (Return tt), (ProcStart (compose_up compose_file env_file)
                               :: ProcEnd (compose_up compose_file env_file) :: t), true.
      rewrite Hl. simpl in *. rewrite Ht, <- app_assoc. unfold launch_events in *. simpl.
      rewrite Hev. repeat split; try done.
      intros i. by rewrite Hsame, K1.
    + eexists _, _, _, false. split; [reflexivity|]. simpl.
      rewrite <- !app_assoc. simpl. split; [reflexivity|]. done.
    + exists {| env := e1;
                trace := trace w ++ [starting_stack compose_file env_file instance_name] |},
             (Raise x), [], false.
      repeat split; try done. intros y [= <-]. eauto.
Qed.

(** One turn of the loop: an entry without both files is passed over in
    silence, any other is handed to [start_stack], and the turn ends
    normally either way. *)
Lemma start_instance_run (instances_dir : string) (skip_questions : bool)
    (instance : string) (w : World) :
  collaborators_raise_Exceptions →
  collaborators_keep_instances instances_dir →
  ∃ w' t,
    start_instance instances_dir skip_questions instance w = (w', Return tt) ∧
    trace w' = trace w ++ t ∧
    same_instances instances_dir (env w) (env w') ∧
    if launchable instances_dir (env w) instance
    then ∃ ran, launch_events t = instance_launch instances_dir instance ran ∧
                (skip_questions = true → ran = true)
    else t = [].
Proof.
  intros Hexc Hkeep. unfold start_instance, launchable. run_monad.
  destruct (os_path_isfile (instance_compose_file instances_dir instance) (env w));
    simpl; [destruct (os_path_isfile (instance_env_file instances_dir instance) (env w))|];
    simpl.
  - destruct (start_stack_run instances_dir
                (instance_compose_file instances_dir instance)
                (instance_env_file instances_dir instance) (PStr instance)
                skip_questions w Hexc Hkeep)
      as (w' & r & t & ran & Hs & Ht & Hev & Hskip & Hsame & Hr).
    rewrite Hs. destruct r as [[]|x].
    + exists w', (starting_stack (instance_compose_file instances_dir instance)
                    (instance_env_file instances_dir instance) (PStr instance) :: t).
      repeat split; try done. exists ran. split; [|done].
      unfold launch_events in *. simpl. by rewrite Hev.
    + rewrite (Hr x eq_refl). simpl.
      eexists _, _. split; [reflexivity|]. simpl. rewrite Ht, <- app_assoc. simpl.
      split; [reflexivity|]. split; [done|].
      exists ran. split; [|done].
      unfold launch_events in *. simpl. rewrite List.filter_app, Hev. simpl.
      by rewrite app_nil_r.
  - exists w, []. by rewrite app_nil_r.
  - exists w, []. by rewrite app_nil_r.
Qed.

(** The loop over the directory listing. *)
Lemma launch_loop (instances_dir : string) (skip_questions : bool)
    (instances : list string) (w : World) :
  collaborators_raise_Exceptions →
  collaborators_keep_instances instances_dir →
  ∃ w' t ran,
    for_each instances (start_instance instances_dir skip_questions) w = (w', Return tt) ∧
    trace w' = trace w ++ t ∧
    same_instances instances_dir (env w) (env w') ∧
    launch_events t
    = concat (zip_with (instance_launch instances_dir)
                (List.filter (launchable instances_dir (env w)) instances) ran) ∧
    length ran = length (List.filter (launchable instances_dir (env w)) instances) ∧
    (skip_questions = true → Forall (λ b, b = true) ran).
Proof.
  intros Hexc Hkeep. revert w.
  induction instances as [|i rest IH]; intros w.
  - exists w, [], []. simpl. rewrite app_nil_r. unfold ret. done.
  - simpl for_each. run_monad.
    destruct (start_instance_run instances_dir skip_questions i w Hexc Hkeep)
      as (w1 & t1 & Hs & Ht1 & Hsame1 & Hi).
    rewrite Hs.
    destruct (IH w1) as (w2 & t2 & ran & Hrest & Ht2 & Hsame2 & Hev & Hlen & Hskip).
    rewrite Hrest.
    assert (Hfilter : List.filter (launchable instances_dir (env w1)) rest
                      = List.filter (launchable instances_dir (env w)) rest).
    { apply List.filter_ext. intros a. apply Hsame1. }
    rewrite Hfilter in Hev, Hlen.
    simpl List.filter.
    destruct (launchable instances_dir (env w) i).
    + destruct Hi as (b & Hb & Hbskip).
      exists w2, (t1 ++ t2), (b :: ran). split; [done|].
      split; [by rewrite Ht2, Ht1, app_assoc|].
      split; [intros a; by rewrite Hsame2, Hsame1|].
      split; [|split].
      * unfold launch_events in *. rewrite List.filter_app, Hb, Hev. done.
      * simpl. by rewrite Hlen.
      * intros Hyes. constructor; auto.
    + subst t1. exists w2, t2, ran. split; [done|].
      split; [by rewrite Ht2, Ht1, app_nil_r|].
      split; [intros a; by rewrite Hsame2, Hsame1|]. done.
Qed.

Lemma launch_loop_calls (instances_dir : string) (instances : list string)
    (ran : list bool) (t : list event) :
  launch_events t = concat (zip_with (instance_launch instances_dir) instances ran) →
  length ran = length instances →
  start_stack_calls t = map (instance_call instances_dir) instances.
Proof.
  intros Hev Hlen.
  rewrite <- start_stack_calls_launch_events, Hev.
  by apply start_stack_calls_instances.
Qed.

Lemma for_each_app {A} (xs ys : list A) (body : A → M unit) (w : World) :
  for_each (xs ++ ys) body w
  = match for_each xs body w with
    | (w', Return _) => for_each ys body w'
    | (w', Raise e) => (w', Raise e)
    end.
Proof.
  revert w. induction xs as [|x xs IH]; intros w; [done|].
  simpl. unfold bind. destruct (body x w) as [w1 [[]|e]]; [apply IH|done].
Qed.

(** C5: in an existing instances directory, [start_multi_proxy_instances]
    calls [start_stack] for the entries that hold both a
    [docker-compose.yaml] and a [.env], in the order of the listing, and for
    no other entry; it returns normally. *)
Theorem start_multi_launches_complete_instances (instances_dir : string)
    (skip_questions : bool) (instances : list string) (w : World) :
  collaborators_raise_Exceptions →
  collaborators_keep_instances instances_dir →
  os_path_isdir instances_dir (env w) = true →
  os_listdir instances_dir (env w) = Return instances →
  ∃ w' t,
    start_multi_proxy_instances instances_dir skip_questions w = (w', Return tt) ∧
    trace w' = trace w ++ t ∧
    start_stack_calls t
    = map (instance_call instances_dir)
          (List.filter (launchable instances_dir (env w)) instances).
Proof.
  intros Hexc Hkeep Hdir Hlist.
  unfold start_multi_proxy_instances. run_monad. rewrite Hdir, Hlist. simpl.
  destruct (launch_loop instances_dir skip_questions instances
              {| env := env w; trace := trace w ++ [starting_instances] |} Hexc Hkeep)
    as (w1 & t & ran & Hloop & Ht & _ & Hev & Hlen & _).
  unfold starting_instances in Hloop. rewrite Hloop. simpl in *.
  eexists _, _. split; [reflexivity|]. simpl.
  rewrite Ht, <- !app_assoc. split; [reflexivity|].
  simpl. rewrite start_stack_calls_app.
  rewrite (launch_loop_calls _ _ _ _ Hev Hlen). simpl. by rewrite app_nil_r.
Qed.

(** C7: when the instances directory does not exist,
    [start_multi_proxy_instances] logs a warning and returns: no launch is
    attempted, nothing is raised, and the outside stays as it was. *)
Theorem start_multi_missing_directory (instances_dir : string) (skip_questions : bool)
    (w : World) :
  os_path_isdir instances_dir (env w) = false →
  start_multi_proxy_instances instances_dir skip_questions w
  = (record w [no_instances_dir instances_dir], Return tt) ∧
  launch_events [no_instances_dir instances_dir] = [].
Proof.
  intros Hdir. unfold start_multi_proxy_instances. run_monad. by rewrite Hdir.
Qed.

(** C10: [start_multi_proxy_instances] launches one instance after the
    other: the launch events of a run are, entry by entry in the order of
    the listing, the call of [start_stack] followed by the start and the end
    of its child process (left out when the operator declines); at every
    moment at most one child process runs, and none runs when the next
    attempt begins. *)
Theorem start_multi_sequential (instances_dir : string) (skip_questions : bool)
    (instances : list string) (w : World) :
  collaborators_raise_Exceptions →
  collaborators_keep_instances instances_dir →
  os_path_isdir instances_dir (env w) = true →
  os_listdir instances_dir (env w) = Return instances →
  ∃ w' t ran,
    start_multi_proxy_instances instances_dir skip_questions w = (w', Return tt) ∧
    trace w' = trace w ++ t ∧
    (launch_events t
     = concat (zip_with (instance_launch instances_dir)
                 (List.filter (launchable instances_dir (env w)) instances) ran) ∧
     length ran = length (List.filter (launchable instances_dir (env w)) instances) ∧
     (skip_questions = true → Forall (λ b, b = true) ran)) ∧
    (∀ t1 t2, t = t1 ++ t2 → in_progress t1 = 0 ∨ in_progress t1 = 1) ∧
    (∀ t1 ev t2, t = t1 ++ ev :: t2 → begins_launch ev = true → in_progress t1 = 0).
Proof.
  intros Hexc Hkeep Hdir Hlist.
  unfold start_multi_proxy_instances. run_monad. rewrite Hdir, Hlist. simpl.
  destruct (launch_loop instances_dir skip_questions instances
              {| env := env w; trace := trace w ++ [starting_instances] |} Hexc Hkeep)
    as (w1 & t & ran & Hloop & Ht & _ & Hev & Hlen & Hskip).
  unfold starting_instances in Hloop. rewrite Hloop. simpl in *.
  eexists _, _, ran. split; [reflexivity|]. simpl.
  rewrite Ht, <- !app_assoc. split; [reflexivity|].
  match goal with
  | |- (launch_events ?t' = ?l ∧ _) ∧ _ => assert (Hall : launch_events t' = l)
  end.
  { unfold launch_events in *. simpl. rewrite List.filter_app, Hev. simpl.
    by rewrite app_nil_r. }
  split; [done|].
  eapply sequenced_one_at_a_time.
  rewrite <- sequenced_launch_events, Hall. apply sequenced_instances.
Qed.

(** C6: a failure while starting one instance is logged and the loop goes
    on.  When the launch goes wrong inside [start_stack], [start_stack] has
    reported it, with an error record in the log, and returned; when
    [start_stack] itself raises, the loop logs that the instance failed to
    start, with the text of the exception.  Either way [start_stack] is then
    called for every entry after it that holds both of its files, and
    [start_multi_proxy_instances] returns normally. *)
Theorem failed_instance_does_not_stop_the_rest (instances_dir : string)
    (skip_questions : bool) (before : list string) (instance : string)
    (after : list string) (w : World) :
  collaborators_raise_Exceptions →
  collaborators_keep_instances instances_dir →
  os_path_isdir instances_dir (env w) = true →
  os_listdir instances_dir (env w) = Return (before ++ instance :: after) →
  let w1 := (for_each before (start_instance instances_dir skip_questions)
               (record w [starting_instances])).1 in
  launchable instances_dir (env w1) instance = true →
  let compose_file := instance_compose_file instances_dir instance in
  let env_file := instance_env_file instances_dir instance in
  let attempt := start_stack compose_file env_file (PStr instance) skip_questions w1 in
  ∃ w' t,
    start_multi_proxy_instances instances_dir skip_questions w = (w', Return tt) ∧
    start_stack_calls t
    = map (instance_call instances_dir)
          (List.filter (launchable instances_dir (env w)) after) ∧
    (attempt.2 = Return tt → trace w' = trace attempt.1 ++ t) ∧
    (∀ x, attempt.2 = Raise x →
          trace w' = trace attempt.1
                     ++ Log ERROR [Text "Failed to start instance '"; Text instance;
                                   Text "': "; Text (str_exn x)] :: t) ∧
    (∀ e1 e2 x, confirmed (PStr instance) skip_questions (env w1) e1 →
                launch_raises compose_file env_file e1 e2 x →
                attempt.2 = Return tt ∧
                ∃ t0, trace attempt.1
                      = trace w1 ++ t0 ++ failure_report (PStr instance) x).
Proof.
  intros Hexc Hkeep Hdir Hlist w1 Hvalid compose_file env_file attempt.
  assert (Hinside : ∀ e1 e2 x,
            confirmed (PStr instance) skip_questions (env w1) e1 →
            launch_raises compose_file env_file e1 e2 x →
            attempt.2 = Return tt ∧
            ∃ t0, trace attempt.1 = trace w1 ++ t0 ++ failure_report (PStr instance) x).
  { intros e1 e2 x Hyes Hfail.
    destruct (start_stack_failure compose_file env_file (PStr instance) skip_questions
                w1 e1 Hexc Hyes) as (w2 & Hstart & Hreport).
    unfold attempt. rewrite Hstart. split; [done|].
    by destruct (Hreport e2 x Hfail) as (_ & t0 & Ht0); exists t0. }
  unfold start_multi_proxy_instances. run_monad. rewrite Hdir, Hlist. simpl.
  rewrite for_each_app.
  destruct (launch_loop instances_dir skip_questions before
              (record w [starting_instances]) Hexc Hkeep)
    as (w1' & t1 & ran1 & Hloop & Ht1 & Hsame1 & _).
  assert (w1' = w1) as -> by (unfold w1; by rewrite Hloop).
  unfold record, starting_instances in Hloop. rewrite Hloop. clear Hloop.
  simpl for_each. unfold bind at 1.
  unfold start_instance at 1. run_monad.
  unfold launchable in Hvalid. apply andb_true_iff in Hvalid as [Hc He].
  rewrite Hc, He. simpl.
  destruct (start_stack_run instances_dir compose_file env_file (PStr instance)
              skip_questions w1 Hexc Hkeep)
    as (w2 & r & ts & ran & Hs & Hts & _ & _ & Hsame2 & Hr).
  fold compose_file env_file. fold attempt in Hinside |- *.
  assert (Hattempt : attempt = (w2, r)) by exact Hs.
  rewrite Hattempt in Hinside |- *. simpl in Hinside |- *.
  assert (Hfilter : List.filter (launchable instances_dir (env w2)) after
                    = List.filter (launchable instances_dir (env w)) after).
  { apply List.filter_ext. intros a. by rewrite Hsame2, Hsame1. }
  destruct r as [[]|x].
  - destruct (launch_loop instances_dir skip_questions after w2 Hexc Hkeep)
      as (w3 & t3 & ran3 & Hloop & Ht3 & _ & Hev3 & Hlen3 & _).
    rewrite Hloop. simpl. rewrite Hfilter in Hev3, Hlen3.
    eexists _, (t3 ++ [all_started]). split; [reflexivity|]. simpl.
    split; [|split; [|split]].
    + rewrite start_stack_calls_app, (launch_loop_calls _ _ _ _ Hev3 Hlen3).
      simpl. by rewrite app_nil_r.
    + intros _. by rewrite Ht3, <- app_assoc.
    + intros y [=].
    + done.
  - rewrite (Hr x eq_refl). simpl.
    destruct (launch_loop instances_dir skip_questions after
                {| env := env w2; trace := trace w2 ++ [failed_to_start instance x] |}
                Hexc Hkeep)
      as (w3 & t3 & ran3 & Hloop & Ht3 & _ & Hev3 & Hlen3 & _).
    rewrite Hloop. simpl in *. rewrite Hfilter in Hev3, Hlen3.
    eexists _, (t3 ++ [all_started]). split; [reflexivity|]. simpl.
    split; [|split; [|split]].
    + rewrite start_stack_calls_app, (launch_loop_calls _ _ _ _ Hev3 Hlen3).
      simpl. by rewrite app_nil_r.
    + intros [=].
    + intros y [= <-]. rewrite Ht3, <- !app_assoc. reflexivity.
    + done.
Qed.

(** C8: the [__main__] block never gets as far as a launch: its call of
    [main] passes the keyword [skip_questions], which [main] does not take,
    so the call raises a [TypeError] whatever the arguments are; the block
    logs it and raises it again. *)
Theorem script_always_fails (args : Namespace) (w : World) :
  call_main (script_kwargs args) w = (w, Raise unexpected_skip_questions) ∧
  (∃ w' e t, script args w = (w', Raise e) ∧
             trace w' = trace w ++ t ∧ launch_events t = []) ∧
  (∀ e1, os_makedirs (log_dir args) (env w) = (e1, Return tt) →
         script args w
         = ({| env := e1;
               trace := trace w ++
                 [BasicConfig (path_join (log_dir args) (log_file args))
                              (level_value (log_level args));
                  Log INFO [Text "Starting fn_startStack script..."];
                  Log ERROR [Text "An unexpected error occurred: ";
                             Text (str_exn unexpected_skip_questions)]] |},
            Raise unexpected_skip_questions)).
Proof.
  assert (Hcall : ∀ w0, call_main (script_kwargs args) w0
                        = (w0, Raise unexpected_skip_questions)) by done.
  split; [apply Hcall|].
  unfold script. run_monad.
  destruct (os_makedirs (log_dir args) (env w)) as [e1 [[]|x]] eqn:Hmk; simpl.
  - run_monad. rewrite <- !app_assoc. simpl. split.
    + eexists _, _, _. split; [reflexivity|]. simpl. split; reflexivity.
    + intros e2 [= <-]. reflexivity.
  - split; [|intros e2 [=]].
    exists {| env := e1; trace := trace w |}, x, []. simpl. by rewrite app_nil_r.
Qed.

End fn_startStack_spec.

#[local] Existing Instance demo.platform.

Lemma demo_raises_Exceptions : collaborators_raise_Exceptions.
Proof.
  split; [|split].
  - intros q [[|n] c] e' x; unfold ask_question_yn; simpl; intros [= _ <-]; reflexivity.
  - intros argv e e' x. unfold subprocess_run. simpl. unfold demo.spawn.
    destruct (bool_decide _); simpl; intros [= _ <-]; reflexivity.
  - intros a b f e e' x. unfold generate_dashboard_urls. simpl. intros [=].
Defined.

Lemma demo_keeps_instances (instances_dir : string) :
  collaborators_keep_instances instances_dir.
Proof. split; [|split]; intros; intros i; reflexivity. Defined.

Lemma start_stack_reports_failure_witness :
  (collaborators_raise_Exceptions ∧
   confirmed (PStr "gamma") true (env demo.boot) (env demo.boot)) ∧
  (start_stack "m4b_proxy_instances/gamma/docker-compose.yaml"
     "m4b_proxy_instances/gamma/.env" (PStr "gamma") true demo.boot).2 = Return tt ∧
  ∃ t,
    trace (start_stack "m4b_proxy_instances/gamma/docker-compose.yaml"
             "m4b_proxy_instances/gamma/.env" (PStr "gamma") true demo.boot).1
    = t ++ [Print [Text Fore_RED; Text "Error starting Docker stack for '";
                   Fmt (PStr "gamma");
                   Text "' instance. Please check that docker is running and that the configuration is complete then try again.";
                   Text Style_RESET_ALL];
            Log ERROR [Text "no configuration file provided"];
            Sleep 2].
Proof.
  split; [split; [exact demo_raises_Exceptions|reflexivity]|].
  destruct (start_stack_reports_failure "m4b_proxy_instances/gamma/docker-compose.yaml"
              "m4b_proxy_instances/gamma/.env" (PStr "gamma") true demo.boot
              (env demo.boot) demo_raises_Exceptions eq_refl) as (w' & Hs & Hexit & _).
  rewrite Hs. split; [reflexivity|].
  destruct (Hexit _ {| returncode := 1; stdout := "";
                       stderr := "no configuration file provided" |} eq_refl)
    as (_ & t & Ht); [discriminate|].
  exists t. exact Ht.
Defined.

Lemma start_multi_launches_complete_instances_witness :
  (collaborators_raise_Exceptions ∧ collaborators_keep_instances "pair" ∧
   os_path_isdir "pair" (env demo.boot) = true ∧
   os_listdir "pair" (env demo.boot) = Return ["alpha"; "beta"]) ∧
  ∃ w' t,
    start_multi_proxy_instances "pair" true demo.boot = (w', Return tt) ∧
    trace w' = trace demo.boot ++ t ∧
    start_stack_calls t = [instance_call "pair" "alpha"].
Proof.
  split; [split; [exact demo_raises_Exceptions|];
          split; [exact (demo_keeps_instances _)|]; split; reflexivity|].
  exact (start_multi_launches_complete_instances "pair" true ["alpha"; "beta"] demo.boot
           demo_raises_Exceptions (demo_keeps_instances "pair") eq_refl eq_refl).
Defined.

Lemma start_multi_missing_directory_witness :
  os_path_isdir "nowhere" (env demo.boot) = false ∧
  start_multi_proxy_instances "nowhere" false demo.boot
  = (record demo.boot [no_instances_dir "nowhere"], Return tt).
Proof.
  split; [reflexivity|].
  exact (proj1 (start_multi_missing_directory "nowhere" false demo.boot eq_refl)).
Defined.

Lemma start_multi_sequential_witness :
  (collaborators_raise_Exceptions ∧ collaborators_keep_instances "m4b_proxy_instances" ∧
   os_path_isdir "m4b_proxy_instances" (env demo.boot) = true ∧
   os_listdir "m4b_proxy_instances" (env demo.boot) = Return ["alpha"; "beta"; "gamma"]) ∧
  ∃ w' t,
    start_multi_proxy_instances "m4b_proxy_instances" true demo.boot = (w', Return tt) ∧
    trace w' = trace demo.boot ++ t ∧
    launch_events t
    = instance_launch "m4b_proxy_instances" "alpha" true
      ++ instance_launch "m4b_proxy_instances" "gamma" true.
Proof.
  split; [split; [exact demo_raises_Exceptions|];
          split; [exact (demo_keeps_instances _)|]; split; reflexivity|].
  destruct (start_multi_sequential "m4b_proxy_instances" true ["alpha"; "beta"; "gamma"]
              demo.boot demo_raises_Exceptions (demo_keeps_instances _) eq_refl eq_refl)
    as (w' & t & ran & Hs & Ht & (Hev & Hlen & Hskip) & _).
  exists w', t. split; [done|]. split; [done|].
  rewrite Hev.
  destruct ran as [|a [|b [|]]]; try discriminate.
  specialize (Hskip eq_refl).
  inversion Hskip as [|? ? -> Hskip']. inversion Hskip' as [|? ? -> _].
  reflexivity.
Defined.

Lemma fleet_raises_Exceptions : @collaborators_raise_Exceptions fleet.platform.
Proof.
  split; [|split].
  - intros q e e' x [=].
  - intros argv e e' x. unfold subprocess_run. simpl.
    destruct (bool_decide _); simpl; intros [= _ <-]; reflexivity.
  - intros a b f e e' x [=].
Defined.

Lemma fleet_keeps_instances (instances_dir : string) :
  @collaborators_keep_instances fleet.platform instances_dir.
Proof. split; [|split]; intros; intros i; reflexivity. Defined.

Lemma failed_instance_does_not_stop_the_rest_witness :
  (∃ w' t0 t,
     @start_multi_proxy_instances fleet.platform "fleet" true fleet.boot
     = (w', Return tt) ∧
     trace w'
     = t0 ++ [Print [Text Fore_RED; Text "Error starting Docker stack for '";
                     Fmt (PStr "first");
                     Text "' instance. Please check that docker is running and that the configuration is complete then try again.";
                     Text Style_RESET_ALL];
              Log ERROR [Text "port is already allocated"];
              Sleep 2] ++ t ∧
     start_stack_calls t = [instance_call "fleet" "second"]) ∧
  (∃ w' t1 t,
     start_multi_proxy_instances "m4b_proxy_instances" false demo.boot = (w', Return tt) ∧
     trace w'
     = t1 ++ Log ERROR [Text "Failed to start instance '"; Text "alpha"; Text "': ";
                        Text "EOF when reading a line"] :: t ∧
     start_stack_calls t = [instance_call "m4b_proxy_instances" "gamma"]).
Proof.
  split.
  - destruct (@failed_instance_does_not_stop_the_rest fleet.platform "fleet" true
                [] "first" ["second"] fleet.boot fleet_raises_Exceptions
                (fleet_keeps_instances _) eq_refl eq_refl eq_refl)
      as (w' & t & Hs & Hcalls & Hreturned & _ & Hinside).
    destruct (Hinside [] [compose_up "fleet/first/docker-compose.yaml" "fleet/first/.env"]
                (CalledProcessError 1 "port is already allocated"
                   (demo.exit_status_text
                      (compose_up "fleet/first/docker-compose.yaml" "fleet/first/.env") 1))
                eq_refl (or_introl eq_refl)) as (_ & t0 & Ht0).
    exists w', (trace (record fleet.boot [starting_instances]) ++ t0), t.
    split; [exact Hs|]. split; [|exact Hcalls].
    rewrite (Hreturned eq_refl), Ht0, <- !app_assoc. reflexivity.
  - destruct (failed_instance_does_not_stop_the_rest "m4b_proxy_instances" false
                [] "alpha" ["beta"; "gamma"] demo.boot demo_raises_Exceptions
                (demo_keeps_instances _) eq_refl eq_refl eq_refl)
      as (w' & t & Hs & Hcalls & _ & Hraised & _).
    eexists w', _, t. split; [exact Hs|]. split; [|exact Hcalls].
    exact (Hraised (OtherException "EOFError" "EOF when reading a line") eq_refl).
Defined.

Lemma script_always_fails_witness :
  os_makedirs "./logs" (env demo.boot) = (env demo.boot, Return tt) ∧
  (script demo.args demo.boot).2 = Raise unexpected_skip_questions.
Proof.
  split; [reflexivity|].
  rewrite (proj2 (proj2 (script_always_fails demo.args demo.boot)) (env demo.boot) eq_refl).
  reflexivity.
Defined.

End fn_startStack_spec.


(** * Further properties of [utils/detect.py] *)

Module detect_more.
Import detect.
Section detect_more.
Context `{Platform}.

(** [detect_os] and [detect_architecture] return exactly when the loaded
    document is a dictionary whose [system] is a dictionary whose [os_map]
    (or [arch_map]) is a dictionary; a missing, null or otherwise shaped
    entry at any of the three levels makes them raise. *)
Theorem detection_returns_iff (src : pyval) (w : World) :
  ((∃ v, (detect_os src w).2 = Return v) ↔
   ∃ cfg sys m, load_load_json_config src (env w) = Return (PDict cfg) ∧
                cfg !! "system" = Some (PDict sys) ∧
                sys !! "os_map" = Some (PDict m)) ∧
  ((∃ v, (detect_architecture src w).2 = Return v) ↔
   ∃ cfg sys m, load_load_json_config src (env w) = Return (PDict cfg) ∧
                cfg !! "system" = Some (PDict sys) ∧
                sys !! "arch_map" = Some (PDict m)).
Proof.
  split; split.
  1, 3: unfold detect_os, detect_architecture; run_monad;
    destruct (load_load_json_config src (env w)) as [doc|e]; simpl;
    [destruct doc as [| | | | | |cfg]; simpl; try (by intros [v [=]]);
     destruct (cfg !! "system") as [[| | | | | |sys]|] eqn:Hsys; simpl;
       try (by intros [v [=]]);
     match goal with
     | |- context [sys !! ?k] =>
         destruct (sys !! k) as [[| | | | | |m]|] eqn:Hmap; simpl;
           try (by intros [v [=]])
     end;
     intros _; by exists cfg, sys, m
    |destruct (is_Exception e); simpl; by intros [v [=]]].
  all: intros (cfg & sys & m & Hload & Hsys & Hmap);
    unfold detect_os, detect_architecture; run_monad;
    rewrite Hload; simpl; rewrite Hsys; simpl; rewrite Hmap; simpl; eauto.
Qed.

(** A failure of the loader is passed on as it is: each function writes one
    ERROR record with the text of the exception and raises the same
    exception; nothing else is logged and the outside is not touched. *)
Theorem detection_passes_loader_failure (src : pyval) (w : World) (x : exn) :
  load_load_json_config src (env w) = Raise x →
  is_Exception x = true →
  detect_os src w
  = (record w [Log ERROR [Text "An error occurred while detecting OS: ";
                          Text (str_exn x)]], Raise x) ∧
  detect_architecture src w
  = (record w [Log ERROR [Text "An error occurred while detecting architecture: ";
                          Text (str_exn x)]], Raise x).
Proof.
  intros Hload Hx. unfold detect_os, detect_architecture, record. run_monad.
  rewrite Hload. simpl. rewrite Hx. done.
Qed.

(** Only the host's string is lower-cased, not the keys of the tables: a
    table all of whose keys hold one of [A]..[Z] never matches, and the
    label is ["unknown"] on every host. *)
Theorem upper_case_keys_never_match (src : pyval) (w : World)
    (cfg sys : gmap string pyval) :
  load_load_json_config src (env w) = Return (PDict cfg) →
  cfg !! "system" = Some (PDict sys) →
  (∀ m, sys !! "os_map" = Some (PDict m) →
        (∀ k, is_Some (m !! k) → has_ascii_capital k = true) →
        (detect_os src w).2 = Return (PDict {[ "os_type" := PStr "unknown" ]})) ∧
  (∀ m, sys !! "arch_map" = Some (PDict m) →
        (∀ k, is_Some (m !! k) → has_ascii_capital k = true) →
        (detect_architecture src w).2
        = Return (PDict (<[ "arch" := PStr (str_lower (platform_machine (env w))) ]>
                         {[ "dkarch" := PStr "unknown" ]}))).
Proof.
  intros Hload Hsys. split; intros m Hmap Hkeys;
    unfold detect_os, detect_architecture; run_monad;
    rewrite Hload; simpl; rewrite Hsys; simpl; rewrite Hmap; simpl.
  - destruct (m !! str_lower (platform_system (env w))) as [v|] eqn:Hv; [|done].
    pose proof (Hkeys _ (mk_is_Some _ _ Hv)) as Hcap.
    by rewrite str_lower_no_capital in Hcap.
  - destruct (m !! str_lower (platform_machine (env w))) as [v|] eqn:Hv; [|done].
    pose proof (Hkeys _ (mk_is_Some _ _ Hv)) as Hcap.
    by rewrite str_lower_no_capital in Hcap.
Qed.

Lemma detect_os_run_lower (loaded : result pyval) (s : string) :
  ∃ t r, ∀ src w,
    load_load_json_config src (env w) = loaded →
    str_lower (platform_system (env w)) = s →
    detect_os src w = (record w t, r).
Proof.
  destruct loaded as [doc|e].
  - destruct (py_get doc "system" PNone) as [sys|e1] eqn:Hsys;
      [destruct (py_get sys "os_map" PNone) as [m|e2] eqn:Hmap;
       [destruct (py_get m s (PStr "unknown")) as [v|e3] eqn:Hv|]|];
      try match goal with
          | Herr : py_get _ _ _ = Raise _ |- _ =>
              pose proof (py_get_raise _ _ _ _ Herr) as ->
          end;
      eexists _, _; intros src w Hload Hhost;
      unfold detect_os, record; run_monad;
      rewrite Hload; simpl; rewrite Hsys; simpl;
      rewrite ?Hmap; simpl; rewrite ?Hhost, ?Hv; simpl;
      rewrite <- ?app_assoc; reflexivity.
  - destruct (is_Exception e) eqn:He.
    + eexists _, _; intros src w Hload _. unfold detect_os, record. run_monad.
      rewrite Hload. simpl. rewrite He. simpl. reflexivity.
    + exists [], (Raise e). intros src w Hload _. rewrite record_nil.
      unfold detect_os. run_monad. rewrite Hload. simpl. rewrite He. reflexivity.
Qed.

Lemma detect_architecture_run_lower (loaded : result pyval) (s : string) :
  ∃ t r, ∀ src w,
    load_load_json_config src (env w) = loaded →
    str_lower (platform_machine (env w)) = s →
    detect_architecture src w = (record w t, r).
Proof.
  destruct loaded as [doc|e].
  - destruct (py_get doc "system" PNone) as [sys|e1] eqn:Hsys;
      [destruct (py_get sys "arch_map" PNone) as [m|e2] eqn:Hmap;
       [destruct (py_get m s (PStr "unknown")) as [v|e3] eqn:Hv|]|];
      try match goal with
          | Herr : py_get _ _ _ = Raise _ |- _ =>
              pose proof (py_get_raise _ _ _ _ Herr) as ->
          end;
      eexists _, _; intros src w Hload Hhost;
      unfold detect_architecture, record; run_monad;
      rewrite Hload; simpl; rewrite Hsys; simpl;
      rewrite ?Hmap; simpl; rewrite ?Hhost, ?Hv; simpl;
      rewrite <- ?app_assoc; reflexivity.
  - destruct (is_Exception e) eqn:He.
    + eexists _, _; intros src w Hload _. unfold detect_architecture, record. run_monad.
      rewrite Hload. simpl. rewrite He. simpl. reflexivity.
    + exists [], (Raise e). intros src w Hload _. rewrite record_nil.
      unfold detect_architecture. run_monad. rewrite Hload. simpl. rewrite He. reflexivity.
Qed.

(** Hosts that spell their OS name and machine string the same up to case
    get the same outcome of [detect_os] and of [detect_architecture], log
    records included. *)
Theorem detection_ignores_host_case (src1 src2 : pyval) (w1 w2 : World) :
  load_load_json_config src1 (env w1) = load_load_json_config src2 (env w2) →
  (str_lower (platform_system (env w1)) = str_lower (platform_system (env w2)) →
   (detect_os src1 w1).2 = (detect_os src2 w2).2 ∧
   ∃ t, trace (detect_os src1 w1).1 = trace w1 ++ t ∧
        trace (detect_os src2 w2).1 = trace w2 ++ t) ∧
  (str_lower (platform_machine (env w1)) = str_lower (platform_machine (env w2)) →
   (detect_architecture src1 w1).2 = (detect_architecture src2 w2).2 ∧
   ∃ t, trace (detect_architecture src1 w1).1 = trace w1 ++ t ∧
        trace (detect_architecture src2 w2).1 = trace w2 ++ t).
Proof.
  intros Hload. split; intros Hhost.
  - destruct (detect_os_run_lower (load_load_json_config src1 (env w1))
                (str_lower (platform_system (env w1)))) as (t & r & Hrun).
    rewrite (Hrun src1 w1), (Hrun src2 w2) by done.
    split; [done|]. by exists t.
  - destruct (detect_architecture_run_lower (load_load_json_config src1 (env w1))
                (str_lower (platform_machine (env w1)))) as (t & r & Hrun).
    rewrite (Hrun src1 w1), (Hrun src2 w2) by done.
    split; [done|]. by exists t.
Qed.

(** [main] prints the outcome of the two detections, the OS first. *)
Theorem main_prints_both (src : pyval) (w : World)
    (cfg sys os_map arch_map : gmap string pyval) :
  load_load_json_config src (env w) = Return (PDict cfg) →
  cfg !! "system" = Some (PDict sys) →
  sys !! "os_map" = Some (PDict os_map) →
  sys !! "arch_map" = Some (PDict arch_map) →
  let arch := str_lower (platform_machine (env w)) in
  let os_type := default (PStr "unknown") (os_map !! str_lower (platform_system (env w))) in
  let dkarch := default (PStr "unknown") (arch_map !! arch) in
  main src w
  = (record w
       [Print [Text "Testing detect module function"];
        Log INFO [Text "Testing detect module function"];
        Log DEBUG [Text "Detecting OS type"];
        Log INFO [Text "OS type detected: "; Fmt os_type];
        Print [Fmt (PDict {[ "os_type" := os_type ]})];
        Log DEBUG [Text "Detecting system architecture"];
        Log INFO [Text "System architecture detected: "; Text arch;
                  Text ", Docker architecture has been set to "; Fmt dkarch];
        Print [Fmt (PDict (<[ "arch" := PStr arch ]> {[ "dkarch" := dkarch ]}))];
        Print [Text "Detect module test complete"];
        Log INFO [Text "Detect module test complete"]],
     Return tt).
Proof.
  intros Hload Hsys Hos Harch arch os_type dkarch.
  unfold main, detect_os, detect_architecture, record. run_monad.
  repeat (first [rewrite Hload | rewrite Hsys | rewrite Hos | rewrite Harch]; simpl).
  rewrite <- !app_assoc. reflexivity.
Qed.

(** [main] stops at the first detection that fails: it logs the error once
    more and raises it.  When [detect_os] fails, [detect_architecture] is
    not run and nothing is printed after the opening line. *)
Theorem main_stops_at_first_failure (src : pyval) (w : World) (x : exn) :
  is_Exception x = true →
  let w0 := record w [Print [Text "Testing detect module function"];
                      Log INFO [Text "Testing detect module function"]] in
  let unexpected := Log ERROR [Text "An unexpected error occurred: "; Text (str_exn x)] in
  ((detect_os src w0).2 = Raise x →
   main src w = (record (detect_os src w0).1 [unexpected], Raise x)) ∧
  (∀ os, (detect_os src w0).2 = Return os →
         let w1 := record (detect_os src w0).1 [Print [Fmt os]] in
         (detect_architecture src w1).2 = Raise x →
         main src w = (record (detect_architecture src w1).1 [unexpected], Raise x)).
Proof.
  intros Hx w0 unexpected.
  assert (Hmain : main src w
                  = match detect_os src w0 with
                    | (w1, Return os) =>
                        match detect_architecture src (record w1 [Print [Fmt os]]) with
                        | (w2, Return architecture) =>
                            (record w2 [Print [Fmt architecture];
                                        Print [Text "Detect module test complete"];
                                        Log INFO [Text "Detect module test complete"]],
                             Return tt)
                        | (w2, Raise e) =>
                            if is_Exception e
                            then (record w2 [Log ERROR [Text "An unexpected error occurred: ";
                                                        Text (str_exn e)]], Raise e)
                            else (w2, Raise e)
                        end
                    | (w1, Raise e) =>
                        if is_Exception e
                        then (record w1 [Log ERROR [Text "An unexpected error occurred: ";
                                                    Text (str_exn e)]], Raise e)
                        else (w1, Raise e)
                    end).
  { unfold main, try_except, mbind, M_bind, bind, print, logging, emit, w0, record.
    cbn [env trace app].
    rewrite <- app_assoc. cbn [app].
    destruct (detect_os src _) as [w1 [os|e]]; [|by destruct (is_Exception e)].
    cbn [env trace].
    destruct (detect_architecture src _) as [w2 [a|e]]; [|by destruct (is_Exception e)].
    cbn [env trace]. rewrite <- !app_assoc. reflexivity. }
  rewrite Hmain. split.
  - intros Hos. destruct (detect_os src w0) as [w1 r]. simpl in *. subst r.
    by rewrite Hx.
  - intros os Hos w1 Harch. subst w1.
    destruct (detect_os src w0) as [w1 r]. simpl in *. subst r.
    destruct (detect_architecture src _) as [w2 r]. simpl in *. subst r.
    by rewrite Hx.
Qed.

End detect_more.

Lemma upper_case_keys_never_match_witness :
  let mixed_case : gmap string pyval :=
    {[ "system" := PDict {[ "os_map" := PDict {[ "Linux" := PStr "lin" ]} ]} ]} in
  @detect_os demo.platform (PDict mixed_case) demo.boot
  = (record demo.boot [Log DEBUG [Text "Detecting OS type"];
                       Log INFO [Text "OS type detected: "; Fmt (PStr "unknown")]],
     Return (PDict {[ "os_type" := PStr "unknown" ]})) ∧
  (@detect_os demo.platform (PDict mixed_case) demo.boot).2
  = Return (PDict {[ "os_type" := PStr "unknown" ]}).
Proof.
  intros mixed_case. split; [reflexivity|].
  refine (proj1 (@upper_case_keys_never_match demo.platform (PDict mixed_case) demo.boot
                   mixed_case {[ "os_map" := PDict {[ "Linux" := PStr "lin" ]} ]}
                   eq_refl eq_refl)
            {[ "Linux" := PStr "lin" ]} eq_refl _).
  intros k [v Hk]. apply lookup_singleton_Some in Hk as [<- _]. reflexivity.
Defined.

Lemma detection_passes_loader_failure_witness :
  (@detect_os demo.platform (PStr "missing.json") demo.boot).2
  = Raise (FileNotFoundError "[Errno 2] No such file or directory: 'missing.json'").
Proof.
  destruct (@detection_passes_loader_failure demo.platform (PStr "missing.json") demo.boot
              (FileNotFoundError "[Errno 2] No such file or directory: 'missing.json'")
              eq_refl eq_refl) as [Hos _].
  rewrite Hos. reflexivity.
Defined.

Lemma detection_ignores_host_case_witness :
  (@detect_os hosts.platform PNone hosts.mixed).2
  = (@detect_os hosts.platform PNone hosts.upper).2 ∧
  (@detect_architecture hosts.platform PNone hosts.mixed).2
  = (@detect_architecture hosts.platform PNone hosts.upper).2.
Proof.
  destruct (@detection_ignores_host_case hosts.platform PNone PNone
              hosts.mixed hosts.upper eq_refl) as [Hos Harch].
  split; [exact (proj1 (Hos eq_refl))|exact (proj1 (Harch eq_refl))].
Defined.

Lemma main_prints_both_witness :
  (@main demo.platform (PStr "m4b-config.json") demo.boot).2 = Return tt ∧
  Print [Fmt (PDict {[ "os_type" := PStr "lin" ]})]
  ∈ trace (@main demo.platform (PStr "m4b-config.json") demo.boot).1.
Proof.
  rewrite (@main_prints_both demo.platform (PStr "m4b-config.json") demo.boot
             demo.document demo.system demo.os_map demo.arch_map
             eq_refl eq_refl eq_refl eq_refl).
  split; [reflexivity|]. simpl.
  do 4 apply list_elem_of_further. apply list_elem_of_here.
Defined.

Lemma main_stops_at_first_failure_witness :
  @main demo.platform (PStr "empty.json") demo.boot
  = (record demo.boot
       [Print [Text "Testing detect module function"];
        Log INFO [Text "Testing detect module function"];
        Log DEBUG [Text "Detecting OS type"];
        Log ERROR [Text "An error occurred while detecting OS: ";
                   Text (str_exn none_has_no_get)];
        Log ERROR [Text "An unexpected error occurred: ";
                   Text (str_exn none_has_no_get)]],
     Raise none_has_no_get).
Proof.
  rewrite (proj1 (@main_stops_at_first_failure demo.platform (PStr "empty.json")
                    demo.boot none_has_no_get eq_refl) eq_refl).
  reflexivity.
Defined.

End detect_more.

(** * Further properties of [utils/fn_startStack.py] *)

Module fn_startStack_more.
Import fn_startStack.
Section fn_startStack_more.
Context `{Platform}.

(** Without a yes there is no launch: after a no [start_stack] prints that
    the startup is canceled and returns; when the prompt raises,
    [start_stack] raises the same exception at once.  Either way no child
    process is run. *)
Theorem start_stack_needs_yes (compose_file env_file : string) (instance_name : pyval)
    (w : World) (e1 : Env) (answer : result bool) :
  ask_question_yn (proceed_question instance_name) (env w) = (e1, answer) →
  answer ≠ Return true →
  ∃ t out,
    start_stack compose_file env_file instance_name false w
    = ({| env := e1;
          trace := trace w ++ starting_stack compose_file env_file instance_name :: t |},
       out) ∧
    launch_events t = [] ∧
    (answer = Return false → t = canceled instance_name ∧ out = Return tt) ∧
    (∀ x, answer = Raise x → t = [] ∧ out = Raise x).
Proof.
  intros Hask Hno. unfold start_stack. run_monad. rewrite Hask.
  destruct answer as [[|]|x]; [done| |]; simpl.
  - exists (canceled instance_name), (Return tt).
    run_monad. rewrite <- !app_assoc. simpl. done.
  - exists [], (Raise x). split; [done|]. split; [done|]. split; [done|].
    by intros y [= <-].
Qed.

(** When the directory cannot be listed, [start_multi_proxy_instances]
    raises what [os.listdir] raised: it has printed its opening line, starts
    nothing and does not print its closing line. *)
Theorem start_multi_listing_fails (instances_dir : string) (skip_questions : bool)
    (w : World) (x : exn) :
  os_path_isdir instances_dir (env w) = true →
  os_listdir instances_dir (env w) = Raise x →
  start_multi_proxy_instances instances_dir skip_questions w
  = (record w [starting_instances], Raise x).
Proof.
  intros Hdir Hlist. unfold start_multi_proxy_instances. run_monad.
  by rewrite Hdir, Hlist.
Qed.

Lemma start_instance_passes_over (instances_dir : string) (skip_questions : bool)
    (instance : string) (w : World) :
  launchable instances_dir (env w) instance = false →
  start_instance instances_dir skip_questions instance w = (w, Return tt).
Proof.
  unfold launchable, start_instance. run_monad.
  destruct (os_path_isfile (instance_compose_file instances_dir instance) (env w));
    simpl; [intros ->|]; done.
Qed.

(** A directory in which no entry holds both files (an empty one, say) is
    walked through in silence: the opening and the closing line are printed,
    no collaborator is called and the outside stays as it was. *)
Theorem start_multi_nothing_launchable (instances_dir : string) (skip_questions : bool)
    (instances : list string) (w : World) :
  os_path_isdir instances_dir (env w) = true →
  os_listdir instances_dir (env w) = Return instances →
  (∀ instance, instance ∈ instances → launchable instances_dir (env w) instance = false) →
  start_multi_proxy_instances instances_dir skip_questions w
  = (record w [starting_instances; all_started], Return tt).
Proof.
  intros Hdir Hlist Hnone. unfold start_multi_proxy_instances. run_monad.
  rewrite Hdir, Hlist. simpl.
  assert (Hloop : ∀ w0 : World, env w0 = env w →
            for_each instances (start_instance instances_dir skip_questions) w0
            = (w0, Return tt)).
  { clear Hlist. induction instances as [|i rest IH]; intros w0 Hw0; [done|].
    simpl. unfold bind. rewrite start_instance_passes_over.
    - apply IH; [|done]. intros j Hj. apply Hnone. by right.
    - rewrite Hw0. apply Hnone. by left. }
  rewrite Hloop by done. unfold emit, record. simpl. by rewrite <- app_assoc.
Qed.

(** A launch that goes well: the child's output goes to the log at INFO,
    the dashboard summary is made from the env file after the child has
    exited, and no error is printed or logged. *)
Theorem start_stack_success (compose_file env_file : string) (instance_name : pyval)
    (skip_questions : bool) (w : World) (e1 e2 e3 : Env) (result : CompletedProcess) :
  confirmed instance_name skip_questions (env w) e1 →
  subprocess_run true (compose_up compose_file env_file) e1 = (e2, Return result) →
  generate_dashboard_urls PNone PNone env_file e2 = (e3, Return tt) →
  start_stack compose_file env_file instance_name skip_questions w
  = ({| env := e3;
        trace := trace w ++
          [starting_stack compose_file env_file instance_name;
           ProcStart (compose_up compose_file env_file);
           ProcEnd (compose_up compose_file env_file);
           Print (started_successfully instance_name); Sleep 2;
           Log INFO [Text (stdout result)];
           Print claim_hint; Sleep 2] |},
     Return tt).
Proof.
  intros Hyes Hsub Hgen. unfold confirmed in Hyes. unfold start_stack, launch, run.
  destruct skip_questions; run_monad; [subst e1|rewrite Hyes; simpl];
    rewrite Hsub; simpl; rewrite Hgen; simpl; rewrite <- !app_assoc; simpl;
    reflexivity.
Qed.

(** *** Paths *)

Lemma list_ascii_of_string_app (a b : string) :
  list_ascii_of_string (a +:+ b) = list_ascii_of_string a ++ list_ascii_of_string b.
Proof. induction a as [|c a IH]; [done|]. simpl. by rewrite IH. Qed.

Lemma path_join_plain (a b : string) :
  a ≠ "" → ends_with_slash a = false → String.prefix "/" b = false →
  path_join a b = a +:+ "/" +:+ b.
Proof.
  intros Ha Hslash Hb. unfold path_join. rewrite Hb, Hslash.
  destruct a; [done|]. reflexivity.
Qed.

(** For a directory and an entry that are plain names, the files of the
    instance are [dir/entry/docker-compose.yaml] and [dir/entry/.env]. *)
Theorem instance_files_plain (instances_dir instance : string) :
  instances_dir ≠ "" → ends_with_slash instances_dir = false →
  instance ≠ "" → String.prefix "/" instance = false → ends_with_slash instance = false →
  instance_compose_file instances_dir instance
  = (instances_dir +:+ "/" +:+ instance) +:+ "/" +:+ "docker-compose.yaml" ∧
  instance_env_file instances_dir instance
  = (instances_dir +:+ "/" +:+ instance) +:+ "/" +:+ ".env".
Proof.
  intros Hdir Hdir_slash Hi Hi_abs Hi_slash.
  unfold instance_compose_file, instance_env_file.
  rewrite (path_join_plain instances_dir instance) by done.
  assert (Hne : instances_dir +:+ "/" +:+ instance ≠ "")
    by (destruct instances_dir; done).
  assert (Hslash : ends_with_slash (instances_dir +:+ "/" +:+ instance) = false).
  { unfold ends_with_slash in *. rewrite list_ascii_of_string_app, last_app.
    change (list_ascii_of_string ("/" +:+ instance))
      with ("/"%char :: list_ascii_of_string instance).
    rewrite last_cons.
    destruct instance as [|c i]; [done|].
    destruct (last (list_ascii_of_string (String c i))) eqn:Hlast; [done|].
    by apply last_None in Hlast. }
  split; by apply path_join_plain.
Qed.

(** *** Computations that keep their exceptions in *)

Lemma returns_contained {A} (c : M A) : returns c → contained c.
Proof.
  intros Hc w. destruct (Hc w) as (w' & a & t & -> & Ht).
  by exists w', (Return a), t.
Qed.

Lemma returns_ret {A} (a : A) : returns (ret a).
Proof. intros w. exists w, a, []. by rewrite app_nil_r. Qed.

Lemma returns_emit (ev : event) : returns (emit ev).
Proof. intros w. by eexists _, tt, [ev]. Qed.

Lemma returns_observe {A} (f : Env → A) : returns (observe f).
Proof. intros w. exists w, (f (env w)), []. by rewrite app_nil_r. Qed.

Lemma returns_bind {A B} (c : M A) (k : A → M B) :
  returns c → (∀ a, returns (k a)) → returns (bind c k).
Proof.
  intros Hc Hk w. unfold bind.
  destruct (Hc w) as (w1 & a & t1 & -> & Ht1).
  destruct (Hk a w1) as (w2 & b & t2 & -> & Ht2).
  exists w2, b, (t1 ++ t2). by rewrite Ht2, Ht1, app_assoc.
Qed.

Lemma contained_pure {A} (r : result A) :
  (∀ x, r = Raise x → is_Exception x = true) → contained (pure r).
Proof. intros Hr w. exists w, r, []. by rewrite app_nil_r. Qed.

Lemma contained_query {A} (f : Env → result A) :
  (∀ e x, f e = Raise x → is_Exception x = true) → contained (query f).
Proof. intros Hf w. exists w, (f (env w)), []. rewrite app_nil_r. eauto. Qed.

Lemma contained_call {A} (f : Env → Env * result A) :
  (∀ e e' x, f e = (e', Raise x) → is_Exception x = true) → contained (call f).
Proof.
  intros Hf w. unfold call. destruct (f (env w)) as [e' r] eqn:Hfe.
  eexists _, r, []. simpl. rewrite app_nil_r.
  split; [done|]. split; [done|]. intros x ->. eauto.
Qed.

Lemma contained_bind {A B} (c : M A) (k : A → M B) :
  contained c → (∀ a, contained (k a)) → contained (bind c k).
Proof.
  intros Hc Hk w. unfold bind.
  destruct (Hc w) as (w1 & [a|x] & t1 & -> & Ht1 & Hx).
  - destruct (Hk a w1) as (w2 & r & t2 & -> & Ht2 & Hr).
    exists w2, r, (t1 ++ t2). by rewrite Ht2, Ht1, app_assoc.
  - exists w1, (Raise x), t1. split; [done|]. split; [done|].
    intros y [= <-]. by apply Hx.
Qed.

(** A [try] statement whose clauses catch every [Exception], and return,
    returns. *)
Lemma returns_try {A} (body : M A) (handler : exn → option (M A)) :
  contained body →
  (∀ e, is_Exception e = true → ∃ h, handler e = Some h ∧ returns h) →
  returns (try_except body handler).
Proof.
  intros Hbody Hcatch w. unfold try_except.
  destruct (Hbody w) as (w1 & [a|x] & t1 & -> & Ht1 & Hx).
  - by exists w1, a, t1.
  - destruct (Hcatch x (Hx x eq_refl)) as (h & -> & Hh).
    destruct (Hh w1) as (w2 & a & t2 & -> & Ht2).
    exists w2, a, (t1 ++ t2). by rewrite Ht2, Ht1, app_assoc.
Qed.

Lemma py_getitem_raise (v : pyval) (key : string) (x : exn) :
  py_getitem v key = Raise x → is_Exception x = true.
Proof.
  destruct v; simpl; try (by intros [= <-]).
  destruct (_ !! key); by intros [= <-].
Qed.

(** Proves [returns] and [contained] goals of straight-line code. *)
Ltac contain :=
  repeat first
    [ apply returns_ret | apply returns_emit | apply returns_observe
    | apply returns_bind; [|intros ?]
    | apply contained_bind; [|intros ?]
    | apply returns_contained ].

Lemma start_stack_handler_returns (instance_name : pyval) (e : exn) :
  is_Exception e = true →
  ∃ h, start_stack_handler instance_name e = Some h ∧ returns h.
Proof.
  intros He. unfold start_stack_handler.
  destruct e; simplify_eq/=; eexists; (split; [reflexivity|]);
    unfold mbind, M_bind, print, logging, time_sleep; contain.
Qed.

Lemma contained_run (argv : list string) :
  collaborators_raise_Exceptions → contained (run argv).
Proof.
  intros (_ & Hrun & _) w. unfold run.
  destruct (subprocess_run true argv (env w)) as [e' r] eqn:Hsub.
  eexists _, r, _. split; [reflexivity|]. split; [reflexivity|].
  intros x ->. eauto.
Qed.

Lemma launch_returns (compose_file env_file : string) (instance_name : pyval) :
  collaborators_raise_Exceptions → returns (launch compose_file env_file instance_name).
Proof.
  intros Hexc. unfold launch. apply returns_try.
  - unfold mbind, M_bind, print, logging, time_sleep.
    apply contained_bind; [by apply contained_run|intros r].
    do 3 (apply contained_bind; [contain|intros _]).
    apply contained_bind; [|intros _; contain].
    apply contained_call. destruct Hexc as (_ & _ & Hdash). apply Hdash.
  - apply start_stack_handler_returns.
Qed.

Lemma start_stack_contained (compose_file env_file : string) (instance_name : pyval)
    (skip_questions : bool) :
  collaborators_raise_Exceptions →
  contained (start_stack compose_file env_file instance_name skip_questions).
Proof.
  intros Hexc. unfold start_stack, mbind, M_bind, print, time_sleep.
  apply contained_bind; [contain|intros _].
  apply contained_bind.
  - destruct skip_questions; simpl; [contain|].
    apply contained_bind; [|intros a; contain].
    apply contained_call. destruct Hexc as (Hask & _). apply Hask.
  - intros [|]; [contain|]. apply returns_contained. by apply launch_returns.
Qed.

Lemma start_instance_returns (instances_dir : string) (skip_questions : bool)
    (instance : string) :
  collaborators_raise_Exceptions →
  returns (start_instance instances_dir skip_questions instance).
Proof.
  intros Hexc. unfold start_instance, mbind, M_bind.
  apply returns_bind; [contain|intros has_compose].
  apply returns_bind; [destruct has_compose; contain|intros has_env].
  destruct (has_compose && has_env); [|contain].
  apply returns_try; [by apply start_stack_contained|].
  intros e ->. eexists. split; [reflexivity|]. contain.
Qed.

Lemma for_each_returns {A} (xs : list A) (body : A → M unit) :
  (∀ x, returns (body x)) → returns (for_each xs body).
Proof.
  intros Hbody. induction xs as [|x xs IH]; simpl; [contain|].
  apply returns_bind; [apply Hbody|intros _; apply IH].
Qed.

(** Once the directory is listed, [start_multi_proxy_instances] returns
    normally and the last thing it does is to print that all instances
    were started, whatever became of the launches. *)
Theorem start_multi_always_reports_success (instances_dir : string)
    (skip_questions : bool) (instances : list string) (w : World) :
  collaborators_raise_Exceptions →
  os_path_isdir instances_dir (env w) = true →
  os_listdir instances_dir (env w) = Return instances →
  ∃ w' t,
    start_multi_proxy_instances instances_dir skip_questions w = (w', Return tt) ∧
    trace w' = trace w ++ starting_instances :: t ++ [all_started].
Proof.
  intros Hexc Hdir Hlist. unfold start_multi_proxy_instances. run_monad.
  rewrite Hdir, Hlist. simpl.
  destruct (for_each_returns instances (start_instance instances_dir skip_questions)
              (λ i, start_instance_returns instances_dir skip_questions i Hexc)
              {| env := env w; trace := trace w ++ [starting_instances] |})
    as (w1 & [] & t & Hloop & Ht).
  unfold starting_instances in Hloop. rewrite Hloop. unfold emit. simpl in *.
  eexists _, t. split; [reflexivity|]. simpl.
  by rewrite Ht, <- !app_assoc.
Qed.

(** *** [main] *)

Lemma caught_report (w : World) (x : exn) :
  is_Exception x = true → caught w x = (record w (main_report x), Return tt).
Proof.
  intros Hx. unfold caught, main_handler, main_report, record.
  destruct x; simplify_eq/=; unfold mbind, M_bind, bind, logging, print, emit; simpl;
    by rewrite <- app_assoc.
Qed.

(** [main], step by step. *)
Lemma main_steps (app_config_path m4b_config_path user_config_path : pyval) (w : World) :
  main app_config_path m4b_config_path user_config_path w
  = match loader_load_json_config m4b_config_path (env w) with
    | Raise x => caught w x
    | Return m4b_config =>
        match loader_load_json_config user_config_path (env w) with
        | Raise x => caught w x
        | Return user_config =>
            match base_instance_name m4b_config with
            | Raise x => caught w x
            | Return name =>
                match start_primary name w with
                | (w1, Raise x) => caught w1 x
                | (w1, Return _) =>
                    match proxies_enabled user_config with
                    | Raise x => caught w1 x
                    | Return enabled =>
                        if truthy enabled
                        then match start_multi_proxy_instances "m4b_proxy_instances" true w1 with
                             | (w2, Return _) => (w2, Return tt)
                             | (w2, Raise x) => caught w2 x
                             end
                        else (w1, Return tt)
                    end
                end
            end
        end
    end.
Proof.
  unfold main, caught, base_instance_name, proxies_enabled, start_primary,
    try_except, mbind, M_bind, bind, query, pure, ret.
  destruct (loader_load_json_config m4b_config_path (env w)) as [m4b_config|x]; [|done].
  destruct (loader_load_json_config user_config_path (env w)) as [user_config|x]; [|done].
  destruct (py_get m4b_config "project" (PDict ∅)) as [project|x]; [|done].
  destruct (py_get project "compose_project_name" (PStr "money4band")) as [name|x]; [|done].
  destruct (start_stack "./docker-compose.yaml" "./.env" name false w) as [w1 [[]|x]];
    [|done].
  destruct (py_getitem user_config "proxies") as [proxies|x]; [|done].
  destruct (py_get proxies "enabled" (PBool false)) as [enabled|x]; [|done].
  destruct (truthy enabled); [|done].
  by destruct (start_multi_proxy_instances "m4b_proxy_instances" true w1) as [w2 [[]|x]].
Qed.

(** [main] starts nothing unless both configuration files load: when either
    load raises, [main] logs and prints the error and returns normally,
    the outside as it was. *)
Theorem main_needs_both_configs (app_config_path m4b_config_path user_config_path : pyval)
    (w : World) (x : exn) :
  is_Exception x = true →
  loader_load_json_config m4b_config_path (env w) = Raise x ∨
  (∃ m4b_config, loader_load_json_config m4b_config_path (env w) = Return m4b_config ∧
                 loader_load_json_config user_config_path (env w) = Raise x) →
  main app_config_path m4b_config_path user_config_path w
  = (record w (main_report x), Return tt).
Proof.
  intros Hx [Hm4b | (m4b_config & Hm4b & Huser)]; rewrite main_steps, Hm4b.
  - by apply caught_report.
  - rewrite Huser. by apply caught_report.
Qed.

(** When starting the primary stack raises (the prompt did), [main] reports
    the exception and returns normally; no proxy instance is looked at. *)
Theorem main_stops_when_primary_raises
    (app_config_path m4b_config_path user_config_path m4b_config user_config name : pyval)
    (w : World) (x : exn) :
  is_Exception x = true →
  loader_load_json_config m4b_config_path (env w) = Return m4b_config →
  loader_load_json_config user_config_path (env w) = Return user_config →
  base_instance_name m4b_config = Return name →
  (start_primary name w).2 = Raise x →
  main app_config_path m4b_config_path user_config_path w
  = (record (start_primary name w).1 (main_report x), Return tt).
Proof.
  intros Hx Hm4b Huser Hname Hprimary. rewrite main_steps, Hm4b, Huser, Hname.
  destruct (start_primary name w) as [w1 r]. simpl in *. subst r.
  by apply caught_report.
Qed.

(** A user configuration without the key [proxies] is noticed only after
    the primary stack has been started: [main] then reports the [KeyError]
    and returns normally. *)
Theorem main_missing_proxies
    (app_config_path m4b_config_path user_config_path m4b_config name : pyval)
    (user_config : gmap string pyval) (w : World) :
  loader_load_json_config m4b_config_path (env w) = Return m4b_config →
  loader_load_json_config user_config_path (env w) = Return (PDict user_config) →
  user_config !! "proxies" = None →
  base_instance_name m4b_config = Return name →
  (start_primary name w).2 = Return tt →
  main app_config_path m4b_config_path user_config_path w
  = (record (start_primary name w).1 (main_report (KeyError "'proxies'")), Return tt).
Proof.
  intros Hm4b Huser Hproxies Hname Hprimary. rewrite main_steps, Hm4b, Huser, Hname.
  destruct (start_primary name w) as [w1 r]. simpl in *. subst r.
  unfold proxies_enabled. simpl. rewrite Hproxies. by apply caught_report.
Qed.

(** With [proxies.enabled] absent or falsy, [main] does what starting the
    primary stack does and nothing more. *)
Theorem main_proxies_disabled
    (app_config_path m4b_config_path user_config_path m4b_config user_config name enabled
       : pyval) (w : World) :
  loader_load_json_config m4b_config_path (env w) = Return m4b_config →
  loader_load_json_config user_config_path (env w) = Return user_config →
  base_instance_name m4b_config = Return name →
  proxies_enabled user_config = Return enabled →
  truthy enabled = false →
  (start_primary name w).2 = Return tt →
  main app_config_path m4b_config_path user_config_path w = start_primary name w.
Proof.
  intros Hm4b Huser Hname Henabled Hfalsy Hprimary.
  rewrite main_steps, Hm4b, Huser, Hname.
  destruct (start_primary name w) as [w1 r]. simpl in *. subst r.
  by rewrite Henabled, Hfalsy.
Qed.

Lemma start_multi_contained (instances_dir : string) (skip_questions : bool) :
  launcher_raises_Exceptions →
  contained (start_multi_proxy_instances instances_dir skip_questions).
Proof.
  intros (Hexc & _ & Hlist).
  unfold start_multi_proxy_instances, mbind, M_bind, print, logging.
  apply contained_bind; [contain|intros [|]]; [|contain].
  apply contained_bind; [contain|intros _].
  apply contained_bind; [apply contained_query, Hlist|intros instances].
  apply contained_bind; [|intros _; contain].
  apply returns_contained, for_each_returns. intros i.
  by apply start_instance_returns.
Qed.

Lemma main_handler_returns (e : exn) :
  is_Exception e = true → ∃ h, main_handler e = Some h ∧ returns h.
Proof.
  intros He. unfold main_handler.
  destruct e; simplify_eq/=; eexists; (split; [reflexivity|]);
    unfold mbind, M_bind, print, logging; contain.
Qed.

(** [main] never raises an [Exception]: whatever goes wrong with the
    configuration files, the prompt, the child processes or the listing, it
    returns normally. *)
Theorem main_never_raises (app_config_path m4b_config_path user_config_path : pyval)
    (w : World) :
  launcher_raises_Exceptions →
  ∃ w' t, main app_config_path m4b_config_path user_config_path w = (w', Return tt) ∧
          trace w' = trace w ++ t.
Proof.
  intros Hall. pose proof Hall as (Hexc & Hload & _).
  assert (Hmain : returns (main app_config_path m4b_config_path user_config_path)).
  { unfold main. apply returns_try; [|apply main_handler_returns].
    unfold mbind, M_bind.
    do 2 (apply contained_bind; [apply contained_query, Hload|intros ?]).
    do 2 (apply contained_bind;
          [apply contained_pure; intros x Hx; by rewrite (py_get_raise _ _ _ _ Hx)
          |intros ?]).
    apply contained_bind; [by apply start_stack_contained|intros _].
    apply contained_bind; [apply contained_pure, py_getitem_raise|intros ?].
    apply contained_bind;
      [apply contained_pure; intros x Hx; by rewrite (py_get_raise _ _ _ _ Hx)
      |intros enabled].
    destruct (truthy enabled); [by apply start_multi_contained|contain]. }
  destruct (Hmain w) as (w' & [] & t & Hw & Ht). eauto.
Qed.

Lemma zip_with_all_true {A B} (f : A → bool → B) (xs : list A) (ran : list bool) :
  length ran = length xs → Forall (λ b, b = true) ran →
  zip_with f xs ran = map (λ x, f x true) xs.
Proof.
  revert ran. induction xs as [|x xs IH]; intros [|b ran] Hlen Hran; try done.
  inversion Hran as [|? ? -> Hran']. simpl. rewrite IH; [done| |done].
  simpl in Hlen. congruence.
Qed.

(** With a truthy [proxies.enabled], [main] first starts the primary stack
    and then, without asking, every complete instance of
    [m4b_proxy_instances] in the order of the listing, each with a child
    process of its own. *)
Theorem main_proxies_enabled
    (app_config_path m4b_config_path user_config_path m4b_config user_config name enabled
       : pyval) (instances : list string) (w : World) :
  collaborators_raise_Exceptions →
  collaborators_keep_instances "m4b_proxy_instances" →
  loader_load_json_config m4b_config_path (env w) = Return m4b_config →
  loader_load_json_config user_config_path (env w) = Return user_config →
  base_instance_name m4b_config = Return name →
  proxies_enabled user_config = Return enabled →
  truthy enabled = true →
  (start_primary name w).2 = Return tt →
  let w1 := (start_primary name w).1 in
  os_path_isdir "m4b_proxy_instances" (env w1) = true →
  os_listdir "m4b_proxy_instances" (env w1) = Return instances →
  ∃ w' t,
    main app_config_path m4b_config_path user_config_path w = (w', Return tt) ∧
    trace w' = trace w1 ++ t ∧
    launch_events t
    = concat (map (λ i, instance_launch "m4b_proxy_instances" i true)
                (List.filter (launchable "m4b_proxy_instances" (env w1)) instances)).
Proof.
  intros Hexc Hkeep Hm4b Huser Hname Henabled Htruthy Hprimary w1 Hdir Hlist.
  rewrite main_steps, Hm4b, Huser, Hname. subst w1.
  destruct (start_primary name w) as [w1 r]. simpl in *. subst r.
  rewrite Henabled, Htruthy.
  unfold start_multi_proxy_instances. run_monad. rewrite Hdir, Hlist. simpl.
  destruct (fn_startStack_spec.launch_loop "m4b_proxy_instances" true instances
              {| env := env w1; trace := trace w1 ++ [starting_instances] |} Hexc Hkeep)
    as (w2 & t & ran & Hloop & Ht & _ & Hev & Hlen & Hskip).
  unfold starting_instances in Hloop. rewrite Hloop. unfold emit. simpl in *.
  eexists _, (starting_instances :: t ++ [all_started]).
  split; [reflexivity|]. simpl. rewrite Ht, <- !app_assoc. split; [done|].
  unfold launch_events in *. simpl. rewrite List.filter_app, Hev. simpl.
  rewrite app_nil_r, zip_with_all_true; auto.
Qed.

End fn_startStack_more.

Lemma demo_launcher_raises_Exceptions : @launcher_raises_Exceptions demo.platform.
Proof.
  split; [exact fn_startStack_spec.demo_raises_Exceptions|]. split.
  - intros src e x. unfold loader_load_json_config. simpl. unfold demo.load.
    repeat case_match; by intros [= <-].
  - intros path e x. unfold os_listdir. simpl. unfold demo.listdir.
    repeat case_match; by intros [= <-].
Defined.

Lemma start_stack_needs_yes_witness :
  @start_stack demo.platform "./docker-compose.yaml" "./.env" (PStr "money4band") false
    demo.boot
  = (record answered
       [starting_stack "./docker-compose.yaml" "./.env" (PStr "money4band")],
     Raise (OtherException "EOFError" "EOF when reading a line")).
Proof.
  destruct (@start_stack_needs_yes demo.platform "./docker-compose.yaml" "./.env"
              (PStr "money4band") demo.boot (env answered)
              (Raise (OtherException "EOFError" "EOF when reading a line")) eq_refl)
    as (t & out & Hs & _ & _ & Hraise); [discriminate|].
  destruct (Hraise _ eq_refl) as [-> ->]. exact Hs.
Defined.

Lemma start_stack_success_witness :
  (@start_stack demo.platform "m4b_proxy_instances/alpha/docker-compose.yaml"
     "m4b_proxy_instances/alpha/.env" (PStr "alpha") true demo.boot).2 = Return tt ∧
  Log INFO [Text "started"]
  ∈ trace (@start_stack demo.platform "m4b_proxy_instances/alpha/docker-compose.yaml"
             "m4b_proxy_instances/alpha/.env" (PStr "alpha") true demo.boot).1.
Proof.
  destruct (@start_stack_success demo.platform
              "m4b_proxy_instances/alpha/docker-compose.yaml"
              "m4b_proxy_instances/alpha/.env" (PStr "alpha") true demo.boot
              (env demo.boot) _ _
              {| returncode := 0; stdout := "started"; stderr := "" |}
              eq_refl eq_refl eq_refl) as [].
  split; [reflexivity|]. simpl.
  do 5 apply list_elem_of_further. apply list_elem_of_here.
Defined.

Lemma instance_files_plain_witness :
  instance_compose_file "m4b_proxy_instances" "alpha"
  = "m4b_proxy_instances/alpha/docker-compose.yaml" ∧
  instance_env_file "m4b_proxy_instances" "alpha" = "m4b_proxy_instances/alpha/.env".
Proof.
  apply (instance_files_plain "m4b_proxy_instances" "alpha"); done.
Defined.

Lemma start_multi_listing_fails_witness :
  @start_multi_proxy_instances bare.platform "m4b_proxy_instances" true bare.locked
  = (record bare.locked [starting_instances],
     Raise (OtherException "PermissionError"
              "[Errno 13] Permission denied: 'm4b_proxy_instances'")).
Proof.
  exact (@start_multi_listing_fails bare.platform "m4b_proxy_instances" true bare.locked
           _ eq_refl eq_refl).
Defined.

Lemma start_multi_nothing_launchable_witness :
  @start_multi_proxy_instances bare.platform "m4b_proxy_instances" false bare.open
  = (record bare.open [starting_instances; all_started], Return tt).
Proof.
  refine (@start_multi_nothing_launchable bare.platform "m4b_proxy_instances" false
            ["README.md"] bare.open eq_refl eq_refl _).
  intros instance _. reflexivity.
Defined.

Lemma start_multi_always_reports_success_witness :
  ∃ w' t,
    @start_multi_proxy_instances demo.platform "m4b_proxy_instances" false demo.boot
    = (w', Return tt) ∧
    trace w' = trace demo.boot ++ starting_instances :: t ++ [all_started].
Proof.
  exact (@start_multi_always_reports_success demo.platform "m4b_proxy_instances" false
           ["alpha"; "beta"; "gamma"] demo.boot
           fn_startStack_spec.demo_raises_Exceptions eq_refl eq_refl).
Defined.

Lemma main_needs_both_configs_witness :
  @main demo.platform (PStr "app-config.json") (PStr "m4b-config.json")
    (PStr "missing.json") demo.boot
  = (record demo.boot
       (main_report
          (FileNotFoundError "[Errno 2] No such file or directory: 'missing.json'")),
     Return tt).
Proof.
  apply (@main_needs_both_configs demo.platform); [reflexivity|].
  right. exists demo.config. split; reflexivity.
Defined.

Lemma main_stops_when_primary_raises_witness :
  (@main demo.platform (PStr "app-config.json") (PStr "m4b-config.json")
     (PStr "user-config.json") demo.boot).2 = Return tt ∧
  launch_events
    (trace (@main demo.platform (PStr "app-config.json") (PStr "m4b-config.json")
              (PStr "user-config.json") demo.boot).1)
  = [starting_stack "./docker-compose.yaml" "./.env" (PStr "money4band")].
Proof.
  rewrite (@main_stops_when_primary_raises demo.platform (PStr "app-config.json")
             (PStr "m4b-config.json") (PStr "user-config.json") demo.config
             (PDict {[ "proxies" := PDict {[ "enabled" := PBool true ]} ]})
             (PStr "money4band") demo.boot
             (OtherException "EOFError" "EOF when reading a line")
             eq_refl eq_refl eq_refl eq_refl eq_refl).
  split; reflexivity.
Defined.

Lemma main_missing_proxies_witness :
  (@main demo.platform (PStr "app-config.json") (PStr "m4b-config.json")
     (PStr "empty.json") answered).2 = Return tt ∧
  launch_events
    (trace (@main demo.platform (PStr "app-config.json") (PStr "m4b-config.json")
              (PStr "empty.json") answered).1)
  = [starting_stack "./docker-compose.yaml" "./.env" (PStr "money4band");
     ProcStart (compose_up "./docker-compose.yaml" "./.env");
     ProcEnd (compose_up "./docker-compose.yaml" "./.env")].
Proof.
  rewrite (@main_missing_proxies demo.platform (PStr "app-config.json")
             (PStr "m4b-config.json") (PStr "empty.json") demo.config
             (PStr "money4band") ∅ answered eq_refl eq_refl eq_refl eq_refl eq_refl).
  split; reflexivity.
Defined.

Lemma main_proxies_disabled_witness :
  @main demo.platform (PStr "app-config.json") (PStr "m4b-config.json")
    (PDict {[ "proxies" := PDict {[ "enabled" := PStr "" ]} ]}) answered
  = @start_primary demo.platform (PStr "money4band") answered.
Proof.
  exact (@main_proxies_disabled demo.platform (PStr "app-config.json")
           (PStr "m4b-config.json")
           (PDict {[ "proxies" := PDict {[ "enabled" := PStr "" ]} ]})
           demo.config (PDict {[ "proxies" := PDict {[ "enabled" := PStr "" ]} ]})
           (PStr "money4band") (PStr "") answered
           eq_refl eq_refl eq_refl eq_refl eq_refl eq_refl).
Defined.

Lemma main_proxies_enabled_witness :
  ∃ w' t,
    @main demo.platform (PStr "app-config.json") (PStr "m4b-config.json")
      (PStr "user-config.json") answered = (w', Return tt) ∧
    trace w' = trace (@start_primary demo.platform (PStr "money4band") answered).1 ++ t ∧
    launch_events t
    = instance_launch "m4b_proxy_instances" "alpha" true
      ++ instance_launch "m4b_proxy_instances" "gamma" true.
Proof.
  exact (@main_proxies_enabled demo.platform (PStr "app-config.json")
           (PStr "m4b-config.json") (PStr "user-config.json") demo.config
           (PDict {[ "proxies" := PDict {[ "enabled" := PBool true ]} ]})
           (PStr "money4band") (PBool true) ["alpha"; "beta"; "gamma"] answered
           fn_startStack_spec.demo_raises_Exceptions
           (fn_startStack_spec.demo_keeps_instances _)
           eq_refl eq_refl eq_refl eq_refl eq_refl eq_refl eq_refl eq_refl).
Defined.

Lemma main_never_raises_witness :
  ∃ w' t,
    @main demo.platform (PStr "app-config.json") (PStr "m4b-config.json")
      (PStr "user-config.json") demo.boot = (w', Return tt) ∧
    trace w' = trace demo.boot ++ t.
Proof.
  exact (@main_never_raises demo.platform (PStr "app-config.json")
           (PStr "m4b-config.json") (PStr "user-config.json") demo.boot
           demo_launcher_raises_Exceptions).
Defined.

End fn_startStack_more.
